(** * Wind-Turbine-Designer: the Python front-ends and the sizing solver

    A shallow embedding of [python/wind_turbine/visualize.py], [cli.py] and
    [gui.py], together with a model of the sizing solver that the front-ends
    import as the extension module [wind_calc].

    Numbers.  Python floats are embedded as exact rationals ([Q]): a decimal
    literal stands for the rational it spells, arithmetic is exact, and
    rounding is not modelled.  Equalities between computed numbers are
    therefore stated with [==] ([Qeq]).  [np.pi] is the binary64 constant
    numpy exports.  Where numpy's float64 arithmetic leaves the finite
    numbers (division by zero) the embedding uses [npfloat], which adds the
    two infinities and NaN. *)

From Stdlib Require Import QArith Qminmax Qabs Lqa Lia List.
From stdpp Require Import gmap strings pretty.

Open Scope Q_scope.

(** ** Numeric helpers shared by the front-ends *)

Module Num.

(** [x < y] on floats, as a boolean. *)
Definition Qltb (x y : Q) : bool := negb (Qle_bool y x).

(** [np.pi]: the double nearest to pi, 0x400921FB54442D18. *)
Definition np_pi : Q := 884279719003555 # 281474976710656.

(** [np.linspace(start, stop, num)] with the default [endpoint=True]:
    [arange(0, num) * step + start] with [step = (stop - start) / (num - 1)],
    and the last sample overwritten by [stop] when [num > 1].  For [num = 1]
    numpy multiplies the single index 0 by the span, which gives [start]. *)
Definition linspace (start stop : Q) (num : nat) : list Q :=
  let div := inject_Z (Z.of_nat (num - 1)) in
  let step := (stop - start) / div in
  let y := map (fun i : nat => inject_Z (Z.of_nat i) * step + start) (seq 0 num) in
  if (1 <? num)%nat then removelast y ++ [stop] else y.

(** A numpy float64 scalar: a finite number, an infinity or NaN.  The sign
    of zero is not modelled; zero is taken as [+0.0].  A finite operation
    never overflows to an infinity here, as it can on floats. *)
Inductive npfloat : Type :=
  | Finite (q : Q)
  | PosInf
  | NegInf
  | NaN.

Definition np_is_finite (x : npfloat) : bool :=
  match x with Finite _ => true | _ => false end.

(** [x > 0] and [x < 0] on float64 scalars: [+inf] is positive, [-inf] is
    negative, NaN is neither. *)
Definition np_positive (x : npfloat) : bool :=
  match x with
  | Finite q => negb (Qle_bool q 0)
  | PosInf => true
  | _ => false
  end.

Definition np_negative (x : npfloat) : bool :=
  match x with
  | Finite q => negb (Qle_bool 0 q)
  | NegInf => true
  | _ => false
  end.

(** The infinity carrying the sign of [q] times the sign of [inf_positive];
    NaN when [q] is zero (used for [inf * 0]). *)
Definition signed_inf (inf_positive : bool) (q : Q) : npfloat :=
  match q ?= 0 with
  | Eq => NaN
  | Gt => if inf_positive then PosInf else NegInf
  | Lt => if inf_positive then NegInf else PosInf
  end.

(** float64 multiplication. *)
Definition np_mul (x y : npfloat) : npfloat :=
  match x, y with
  | NaN, _ | _, NaN => NaN
  | Finite a, Finite b => Finite (a * b)
  | PosInf, Finite b | Finite b, PosInf => signed_inf true b
  | NegInf, Finite b | Finite b, NegInf => signed_inf false b
  | PosInf, PosInf | NegInf, NegInf => PosInf
  | PosInf, NegInf | NegInf, PosInf => NegInf
  end.

(** float64 division.  numpy does not raise on a zero divisor: it warns and
    returns an infinity, or NaN for [0 / 0]. *)
Definition np_div (x y : npfloat) : npfloat :=
  match x, y with
  | NaN, _ | _, NaN => NaN
  | Finite a, Finite b =>
      match b ?= 0 with
      | Eq => signed_inf true a
      | _ => Finite (a / b)
      end
  | Finite _, (PosInf | NegInf) => Finite 0
  | (PosInf | NegInf), (PosInf | NegInf) => NaN
  | PosInf, Finite b => if Qltb b 0 then NegInf else PosInf
  | NegInf, Finite b => if Qltb b 0 then PosInf else NegInf
  end.

End Num.

(** ** visualize.py *)

Module Visualize.
Import Num.

(** The operating point and power coefficient fixed in [power_curve]:
    [tsr = 7.0] and [cp = 0.4]. *)
Definition power_curve_tsr : Q := 7.0.
Definition power_curve_cp : Q := 0.4.

(** [power_curve(cfg, min_v, max_v, steps)].  [cfg] is a dict; a missing key
    raises [KeyError], rendered as [None].  The data frame is the list of its
    rows [(wind_speed, power)].  Two exceptions of the float and numpy
    layers fall outside the embedding: the [OverflowError] of
    [blade_radius**2] for a radius whose square leaves the float range
    (rationals do not overflow) and the [ValueError] of [np.linspace] for a
    negative [steps] ([steps] is a [nat]). *)
Definition power_curve (cfg : gmap string Q) (min_v max_v : Q) (steps : nat)
  : option (list (Q * Q)) :=
  let v := linspace min_v max_v steps in
  blade_radius ← cfg !! "blade_radius";
  let area := np_pi * blade_radius ^ 2 in
  let tsr := power_curve_tsr in
  let cp := power_curve_cp in
  air_density ← cfg !! "air_density";
  let power := map (fun vi => cp * 0.5 * air_density * area * vi ^ 3) v in
  cut_in ← cfg !! "cut_in";
  cut_out ← cfg !! "cut_out";
  let clipped :=
    zip_with (fun vi p => if Qltb vi cut_in || Qltb cut_out vi then 0 else p)
             v power in
  Some (zip v clipped).

(** The sample configuration of [example.py]. *)
Definition example_cfg : gmap string Q :=
  <["blade_radius" := 0.6]> (<["air_density" := 1.225]>
    (<["cut_in" := 2.5]> (<["cut_out" := 25.0]> ∅))).

(** The defaults [min_v=0.0, max_v=25.0, steps=200]. *)
Definition power_curve_default (cfg : gmap string Q) : option (list (Q * Q)) :=
  power_curve cfg 0.0 25.0 200.

(** [plot_tsr_analysis], first panel. *)
Definition tsr_range : list Q := linspace 1 15 100.

(** The polynomial of the loop body, before clamping:
    [a, b, c = 0.5, 0.3, 0.02; cp = a * tsr * (1.0 - b * tsr + c * tsr**2)]. *)
Definition cp_raw (tsr : Q) : Q :=
  let a := 0.5 in
  let b := 0.3 in
  let c := 0.02 in
  a * tsr * (1.0 - b * tsr + c * tsr ^ 2).

(** Python's [max(0, cp)]: the second argument wins only when it is
    strictly greater. *)
Definition py_max0 (cp : Q) : Q :=
  match cp ?= 0 with
  | Gt => cp
  | _ => 0
  end.

(** The value appended to [cp_values] for one [tsr]. *)
Definition cp_point (tsr : Q) : Q := py_max0 (cp_raw tsr).

(** [cp_values] after the loop over [tsr_range]. *)
Definition cp_values : list Q := map cp_point tsr_range.

(** [plot_tsr_analysis], second panel. *)
Definition wind_speeds_range : list Q := linspace 2 20 100.

(** One iteration of the inner loop:
    [omega = tsr * v / blade_radius; rpm = omega * 60.0 / (2.0 * np.pi)].
    [v] is a numpy scalar, so the divisions are numpy's. *)
Definition rpm_point (tsr v blade_radius : Q) : npfloat :=
  let omega := np_div (Finite (tsr * v)) (Finite blade_radius) in
  np_div (np_mul omega (Finite 60.0)) (Finite (2.0 * np_pi)).

(** [rpm_values] for one [tsr] of the outer loop. *)
Definition rpm_values (tsr blade_radius : Q) : list npfloat :=
  map (fun v => rpm_point tsr v blade_radius) wind_speeds_range.

(** The curves drawn in the second panel, one per [tsr] in [6..10]. *)
Definition rpm_curves (blade_radius : Q) : list (Q * list npfloat) :=
  map (fun tsr => (tsr, rpm_values tsr blade_radius)) [6; 7; 8; 9; 10].

(** The power-coefficient curve as the specification words it:
    [max(0, 0.5 tsr (1 - 0.3 tsr + 0.02 tsr^2))]. *)
Definition Cp_spec (tsr : Q) : Q :=
  Qmax 0 (0.5 * tsr * (1 - 0.3 * tsr + 0.02 * (tsr * tsr))).

(** The shaft RPM as the specification words it. *)
Definition shaftRpm_spec (tsr wind_speed radius : Q) : Q :=
  let omega := tsr * wind_speed / radius in
  omega * 60 / (2 * np_pi).

(** The Betz limit, 16/27 (about 0.593). *)
Definition betz_limit : Q := 16 # 27.

(** A curve [f] has a single interior maximum on [[lo, hi]] at [opt]. *)
Definition unimodal_on (f : Q -> Q) (lo hi opt : Q) : Prop :=
  lo < opt /\ opt < hi /\
  (forall x y, lo <= x -> x <= y -> y <= opt -> f x <= f y) /\
  (forall x y, opt <= x -> x <= y -> y <= hi -> f y <= f x).

End Visualize.

(** ** wind_calc: the sizing solver behind [PySolver.design_summary]

    The extension module is imported by [cli.py], [gui.py], [example.py] and
    the tests, but its source is not part of the Python tree. *)

Module WindCalc.
Import Num.

Inductive GeneratorType : Type := Brushed | Brushless.

Record Env : Type := { air_density : Q; wind_speed : Q }.

Record Constraints : Type :=
  { blade_radius : Q; num_blades : Z; generator_type : GeneratorType }.

(** [PyTurbineConfig(target_wattage=..., env=..., constraints=...)]. *)
Record TurbineConfig : Type :=
  { target_wattage : Q; env : Env; constraints : Constraints }.

(** The eight fields of the summary, as [test_solver_design_summary] and
    [example.py] read them. *)
Module DesignSummary.
Record t : Type :=
  { rotor_area : Q;
    blade_length : Q;
    tsr : Q;
    rpm : Q;
    gear_ratio : Q;
    generator_type : GeneratorType;
    cut_in : Q;
    cut_out : Q }.
End DesignSummary.

(** The input fields validation can reject. *)
Inductive Field : Type :=
  | air_density_field
  | wind_speed_field
  | blade_radius_field
  | num_blades_field
  | target_wattage_field.

Inductive ErrorKind : Type :=
  | InvalidInput (field : Field)
  | InfeasibleDesign (p_max : Q)
  | SolverDidNotConverge.

Inductive Result (A : Type) : Type :=
  | Ok (a : A)
  | Err (e : ErrorKind).
Arguments Ok {A} a.
Arguments Err {A} e.

Definition TSR_MIN : Q := 1.
Definition CUT_IN : Q := 2.5.
Definition CUT_OUT : Q := 25.0.
Definition TOLERANCE : Q := 1 # 10000.
Definition MAX_ITERATIONS : nat := 100.


(** Modelled from the spec: the validation step of the solver (section 7,
    [InvalidInput]); the solver's source is missing.  Does [field] of [cfg]
    break its bound? *)
Definition violates (cfg : TurbineConfig) (field : Field) : bool :=
  match field with
  | air_density_field => Qle_bool (air_density (env cfg)) 0
  | wind_speed_field => Qle_bool (wind_speed (env cfg)) 0
  | blade_radius_field => Qle_bool (blade_radius (constraints cfg)) 0
  | num_blades_field => (num_blades (constraints cfg) <? 1)%Z
  | target_wattage_field => Qle_bool (target_wattage cfg) 0
  end.

(** Modelled from the spec: step 1 of section 4.2, "validate inputs, reject
    on first violation", with the fields in the order section 7 lists them;
    the solver's source is missing. *)
Definition validate (cfg : TurbineConfig) : option Field :=
  List.find (violates cfg)
    [air_density_field; wind_speed_field; blade_radius_field;
     num_blades_field; target_wattage_field].

(** Modelled from the spec: [rotor_area = pi * blade_radius^2] (section 3);
    the solver's source is missing. *)
Definition rotorArea (radius : Q) : Q := np_pi * radius ^ 2.

(** Modelled from the spec: [shaftRpm] of section 4.1, undefined for
    [radius <= 0]; the solver's source is missing. *)
Definition shaftRpm (tsr wind_speed radius : Q) : option Q :=
  if Qle_bool radius 0 then None
  else
    let omega := tsr * wind_speed / radius in
    Some (omega * 60 / (2 * np_pi)).

Section Solver.

(** The aerodynamic model is a model-fitting choice of the implementer
    (section 4.1): the curve, the TSR at which it peaks, and the nominal
    generator speed per family are parameters of the solver. *)
Variable powerCoefficient : Q -> Q.
Variable tsr_opt : Q.
Variable nominalGeneratorRpm : GeneratorType -> Q.

(** Modelled from the spec: [availablePower] of section 4.1,
    [P = Cp(tsr) * 0.5 * air_density * area * wind_speed^3]; the solver's
    source is missing. *)
Definition availablePower (tsr : Q) (e : Env) (area : Q) : Q :=
  powerCoefficient tsr * 0.5 * air_density e * area * wind_speed e ^ 3.

(** Modelled from the spec: the bracketed root search of step 4, as a
    bisection on the rising branch; the solver's source is missing.  Each
    iteration takes the bracket midpoint, accepts it when the absolute power
    error is below [TOLERANCE * target], and otherwise keeps the half that
    brackets the target.  After [fuel] iterations the midpoint of the last
    bracket is accepted if within tolerance, else the search fails.  The
    second component counts the evaluations of the power curve.  Midpoints
    are kept in lowest terms. *)
Fixpoint bisect (power : Q -> Q) (target : Q) (fuel : nat) (lo hi : Q)
  : option Q * nat :=
  let mid := Qred ((lo + hi) / 2) in
  let p := power mid in
  if Qltb (Qabs (p - target)) (TOLERANCE * target) then (Some mid, 1%nat)
  else
    match fuel with
    | O => (None, 1%nat)
    | S fuel' =>
        let '(r, n) :=
          if Qltb p target then bisect power target fuel' mid hi
          else bisect power target fuel' lo mid in
        (r, S n)
    end.

(** Modelled from the spec: the algorithm of section 4.2, steps 1 to 8; the
    solver's source is missing.  The result comes with the number of
    evaluations of the power curve the solve made. *)
Definition solve (cfg : TurbineConfig) : Result DesignSummary.t * nat :=
  match validate cfg with
  | Some field => (Err (InvalidInput field), 0%nat)
  | None =>
      let e := env cfg in
      let c := constraints cfg in
      let area := rotorArea (blade_radius c) in
      let p_max := availablePower tsr_opt e area in
      if Qltb p_max (target_wattage cfg) then (Err (InfeasibleDesign p_max), 1%nat)
      else
        let power := fun t => availablePower t e area in
        match bisect power (target_wattage cfg) MAX_ITERATIONS TSR_MIN tsr_opt with
        | (None, n) => (Err SolverDidNotConverge, S n)
        | (Some t, n) =>
            match shaftRpm t (wind_speed e) (blade_radius c) with
            | None => (Err (InvalidInput blade_radius_field), S n)
            | Some r =>
                (Ok {| DesignSummary.rotor_area := area;
                       DesignSummary.blade_length := blade_radius c;
                       DesignSummary.tsr := t;
                       DesignSummary.rpm := r;
                       DesignSummary.gear_ratio :=
                         r / nominalGeneratorRpm (generator_type c);
                       DesignSummary.generator_type := generator_type c;
                       DesignSummary.cut_in := CUT_IN;
                       DesignSummary.cut_out := CUT_OUT |}, S n)
            end
        end
  end.

(** The outcome alone, as a caller sees it. *)
Definition solver_result (cfg : TurbineConfig) : Result DesignSummary.t :=
  fst (solve cfg).




End Solver.

(** A sample aerodynamic model: a parabola that is 0.07 at [TSR_MIN], peaks
    at 0.525625 for [tsr = 7.75] and returns to 0 at [TSR_MAX]. *)
Definition sample_powerCoefficient (tsr : Q) : Q :=
  0.01 * (tsr - 0.5) * (15 - tsr).
Definition sample_tsr_opt : Q := 31 # 4.
Definition sample_nominalGeneratorRpm (g : GeneratorType) : Q :=
  match g with Brushed => 3000 | Brushless => 1500 end.

Definition sample_solve : TurbineConfig -> Result DesignSummary.t * nat :=
  solve sample_powerCoefficient sample_tsr_opt sample_nominalGeneratorRpm.

(** The scenario of section 8 with a chosen target. *)
Definition scenario (target : Q) : TurbineConfig :=
  {| target_wattage := target;
     env := {| air_density := 1.225; wind_speed := 6.0 |};
     constraints := {| blade_radius := 0.5; num_blades := 3;
                       generator_type := Brushless |} |}.

End WindCalc.

(** ** What the front-ends share: exceptions and the summary dict *)

Module Py.
Import WindCalc.

(** The exceptions the front-ends can meet: [ValueError] from [float()] and
    [int()], the solver's classified failure, and [OSError] from a file
    that cannot be opened for writing. *)
Inductive Exception : Type :=
  | ValueError (msg : string)
  | SolverError (e : ErrorKind)
  | OSError (path : string).

(** A Python computation: it raises or returns. *)
Definition Outcome (A : Type) : Type := Exception + A.

Definition raise {A : Type} (e : Exception) : Outcome A := inl e.
Definition ret {A : Type} (a : A) : Outcome A := inr a.
Definition bind {A B : Type} (m : Outcome A) (k : A -> Outcome B) : Outcome B :=
  match m with
  | inl e => inl e
  | inr a => k a
  end.

(** A value stored in the summary dict. *)
Inductive Value : Type :=
  | Number (q : Q)
  | Str (s : string).

(** The summary is a Python dict: keys in insertion order. *)
Definition Dict : Type := list (string * Value).

Definition keys (d : Dict) : list string := map fst d.
Definition values (d : Dict) : list Value := map snd d.

Definition generator_name (g : GeneratorType) : string :=
  match g with Brushed => "Brushed" | Brushless => "Brushless" end.

(** Modelled from the spec: the dict [PySolver.design_summary] returns, with
    the eight fields of section 3 in the order the tests list them; the
    binding's source is missing. *)
Definition summary_dict (s : DesignSummary.t) : Dict :=
  [ ("rotor_area", Number (DesignSummary.rotor_area s));
    ("blade_length", Number (DesignSummary.blade_length s));
    ("tsr", Number (DesignSummary.tsr s));
    ("rpm", Number (DesignSummary.rpm s));
    ("gear_ratio", Number (DesignSummary.gear_ratio s));
    ("generator_type", Str (generator_name (DesignSummary.generator_type s)));
    ("cut_in", Number (DesignSummary.cut_in s));
    ("cut_out", Number (DesignSummary.cut_out s)) ].

(** [PySolver(cfg).design_summary()] over the sample aerodynamic model. *)
Definition sample_design_summary (cfg : TurbineConfig) : Outcome Dict :=
  match fst (sample_solve cfg) with
  | Ok s => ret (summary_dict s)
  | Err e => raise (SolverError e)
  end.

End Py.

Notation "'let!' x ':=' m 'in' k" := (Py.bind m (fun x => k))
  (at level 10, x name, m at level 100, k at level 200, only parsing).

(** ** cli.py *)

Module Cli.
Import WindCalc Py.

(** [sub in s]. *)
Fixpoint contains (sub s : string) : bool :=
  String.prefix sub s ||
  match s with
  | EmptyString => false
  | String _ s' => contains sub s'
  end.

(** [s.replace(old, new)] for a non-empty [old]: scan from the left; at an
    occurrence of [old] emit [new] and skip the rest of the occurrence
    ([skip] counts the characters still to drop), otherwise copy one
    character. *)
Fixpoint replace_from (old new : string) (skip : nat) (s : string) : string :=
  match s with
  | EmptyString => EmptyString
  | String c s' =>
      match skip with
      | S k => replace_from old new k s'
      | O =>
          if String.prefix old s
          then String.append new (replace_from old new (String.length old - 1) s')
          else String c (replace_from old new 0 s')
      end
  end.

Definition py_replace (s old new : string) : string := replace_from old new 0 s.

(** The options of the [design] command, after click parsed them. *)
Record Args : Type :=
  { wattage : Q;
    air_density : Q;
    wind_speed : Q;
    radius : Q;
    blades : Z;
    generator : string;
    output : string }.

(** The defaults of the decorators; [--wattage] is required. *)
Definition default_args (wattage : Q) : Args :=
  {| wattage := wattage; air_density := 1.225; wind_speed := 6.0;
     radius := 0.5; blades := 3; generator := "brushless";
     output := "summary.json" |}.

(** [wind-turbine design --wattage 50 --output summary.txt]. *)
Definition args_txt : Args :=
  {| wattage := 50; air_density := 1.225; wind_speed := 6.0; radius := 0.5;
     blades := 3; generator := "brushless"; output := "summary.txt" |}.

(** What the file system knows of a path: the JSON object [json.dump]
    wrote, the table [DataFrame.to_csv(index=False)] wrote (header, then
    rows), or that the path cannot be opened for writing (its directory is
    missing, it is a directory, permission is denied). *)
Inductive Artifact : Type :=
  | JsonObject (members : Dict)
  | CsvTable (header : list string) (rows : list (list Value))
  | NotWritable.

(** [json.dump(summary, f, indent=2)]. *)
Definition json_dump (summary : Dict) : Artifact := JsonObject summary.

(** [pd.DataFrame([summary]).to_csv(path, index=False)]: one column per key,
    one row. *)
Definition to_csv (summary : Dict) : Artifact :=
  CsvTable (keys summary) [values summary].

(** The file system (path to content) and what was echoed. *)
Record World : Type :=
  { files : gmap string Artifact; stdout : list string }.

(** Can [path] be opened for writing? *)
Definition writable (w : World) (path : string) : bool :=
  match files w !! path with
  | Some NotWritable => false
  | _ => true
  end.

(** [open(path, "w")] and [to_csv(path)]: the write replaces what the path
    held, or raises [OSError] and changes nothing. *)
Definition write_file (path : string) (a : Artifact) (w : World)
  : Outcome World :=
  if writable w path
  then ret {| files := <[path := a]> (files w); stdout := stdout w |}
  else raise (OSError path).

Definition echo (line : string) (w : World) : World :=
  {| files := files w; stdout := stdout w ++ [line] |}.

Definition config_of_args (a : Args) : TurbineConfig :=
  {| target_wattage := wattage a;
     env := {| WindCalc.air_density := air_density a;
               WindCalc.wind_speed := wind_speed a |};
     constraints :=
       {| blade_radius := radius a;
          num_blades := blades a;
          generator_type :=
            if String.eqb (generator a) "brushless" then Brushless else Brushed |} |}.

(** The path the CSV goes to. *)
Definition csv_path (output : string) : string :=
  py_replace output ".json" ".csv".

Section Command.

(** [wind_calc.PySolver(cfg).design_summary()]. *)
Variable design_summary : TurbineConfig -> Outcome Dict.

(** The [design] command.  An exception of the solver leaves the command
    before anything is written; an [OSError] of a write leaves it with what
    was written and echoed before. *)
Definition design (a : Args) (w : World) : Outcome unit * World :=
  let cfg := config_of_args a in
  match design_summary cfg with
  | inl e => (raise e, w)
  | inr summary =>
      match write_file (output a) (json_dump summary) w with
      | inl e => (raise e, w)
      | inr w1 =>
          let w2 := echo (String.append "Design written to " (output a)) w1 in
          match write_file (csv_path (output a)) (to_csv summary) w2 with
          | inl e => (raise e, w2)
          | inr w3 =>
              let w4 :=
                echo (String.append "CSV written to " (csv_path (output a))) w3 in
              (ret tt, w4)
          end
      end
  end.

End Command.

Definition empty_world : World := {| files := ∅; stdout := [] |}.

(** The paths of the world that hold a JSON object. *)
Definition holds_json (w : World) (path : string) : bool :=
  match files w !! path with
  | Some (JsonObject _) => true
  | _ => false
  end.

End Cli.

(** ** gui.py *)

Module Gui.
Import WindCalc Py.

(** The five line edits of [DesignApp]. *)
Record Form : Type :=
  { wattage : string;
    air_density : string;
    wind_speed : string;
    radius : string;
    blades : string }.

(** The texts [__init__] puts in them. *)
Definition initial_form : Form :=
  {| wattage := "50"; air_density := "1.225"; wind_speed := "6";
     radius := "0.5"; blades := "3" |}.

(** The message box [generate] ends with. *)
Inductive Dialog : Type :=
  | critical (title text : string)
  | information (title text : string).

Section Generate.

(** [float()], [int()], [str()] of an exception, [json.dumps(_, indent=2)]
    and the solver are used as given. *)
Variable py_float : string -> Outcome Q.
Variable py_int : string -> Outcome Z.
Variable str : Exception -> string.
Variable json_dumps : Dict -> string.
Variable design_summary : TurbineConfig -> Outcome Dict.

(** The configuration built inside the [try]. *)
Definition build_config (f : Form) : Outcome TurbineConfig :=
  let! target := py_float (wattage f) in
  let! rho := py_float (air_density f) in
  let! v := py_float (wind_speed f) in
  let! r := py_float (radius f) in
  let! n := py_int (blades f) in
  ret {| target_wattage := target;
         env := {| WindCalc.air_density := rho; WindCalc.wind_speed := v |};
         constraints := {| blade_radius := r; num_blades := n;
                           generator_type := Brushless |} |}.

(** [DesignApp.generate]. *)
Definition generate (f : Form) : Dialog :=
  match (let! cfg := build_config f in design_summary cfg) with
  | inl e => critical "Error" (str e)
  | inr summary => information "Design Summary" (json_dumps summary)
  end.

End Generate.

End Gui.

(** ** visualize.py: the plotting functions *)

Module Plot.
Import Num Visualize.

(** A call on [matplotlib.pyplot], with the arguments the module passes.
    The state of pyplot is the log of the calls made, oldest first. *)
Inductive PltCall : Type :=
  | figure (width height : Z)
  | subplot (nrows ncols index : Z)
  | plot (xs : list Q) (ys : list npfloat) (fmt : option string)
         (label : option string) (linewidth : option Z)
  | xlabel (text : string)
  | ylabel (text : string)
  | title (text : string)
  | legend
  | grid (alpha : Q)
  | xlim (lo hi : Q)
  | ylim (lo : Q) (hi : option Q)
  | tight_layout
  | show.

(** How a plotting function ends: it returns, or an exception raised by
    [power_curve] leaves it; either way with the calls made so far. *)
Inductive Drawing : Type :=
  | Completed (calls : list PltCall)
  | Raised (calls : list PltCall).

Definition is_plot (c : PltCall) : bool :=
  match c with plot _ _ _ _ _ => true | _ => false end.

Definition is_show (c : PltCall) : bool :=
  match c with show => true | _ => false end.

(** The curves drawn, in order. *)
Definition curves (calls : list PltCall) : list PltCall :=
  List.filter is_plot calls.

(** [df['power'] / 1000]. *)
Definition kilowatts (df : list (Q * Q)) : list npfloat :=
  map (fun row => Finite (snd row / 1000)) df.

(** [plot_power_curve(cfg)]. *)
Definition plot_power_curve (cfg : gmap string Q) : Drawing :=
  match power_curve_default cfg with
  | None => Raised []
  | Some df =>
      Completed
        [ figure 10 6;
          plot (map fst df) (kilowatts df) None (Some "Power (kW)") (Some 2%Z);
          xlabel "Wind speed (m/s)";
          ylabel "Power (kW)";
          title "Wind Turbine Power Curve";
          legend;
          grid 0.3;
          xlim 0 25;
          ylim 0 None;
          show ]
  end.

Section Formatting.

(** The format [:.1f] and [str()] of a float are used as given. *)
Variable format_1f : Q -> string.
Variable str_float : Q -> string.

(** The loop of [plot_design_comparison] over [designs.items()], continuing
    the log [calls]; [true] when an exception left it. *)
Fixpoint plot_designs (designs : list (string * gmap string Q))
    (calls : list PltCall) : list PltCall * bool :=
  match designs with
  | [] => (calls, false)
  | (name, cfg) :: rest =>
      match power_curve_default cfg with
      | None => (calls, true)
      | Some df =>
          match cfg !! "blade_radius" with
          | None => (calls, true)
          | Some blade_radius =>
              let label :=
                String.append name
                  (String.append " ("
                     (String.append (format_1f blade_radius) "m radius)")) in
              plot_designs rest
                (calls ++ [plot (map fst df) (kilowatts df) None (Some label)
                                (Some 2%Z)])
          end
      end
  end.

(** [plot_design_comparison(designs)]; the dict is the list of its items. *)
Definition plot_design_comparison (designs : list (string * gmap string Q))
  : Drawing :=
  match plot_designs designs [figure 12 8] with
  | (calls, true) => Raised calls
  | (calls, false) =>
      Completed
        (calls ++
         [ xlabel "Wind speed (m/s)";
           ylabel "Power (kW)";
           title "Wind Turbine Design Comparison";
           legend;
           grid 0.3;
           xlim 0 25;
           ylim 0 None;
           show ])
  end.

(** The TSR values of the second panel of [plot_tsr_analysis]. *)
Definition rpm_panel_tsrs : list Z := [6; 7; 8; 9; 10]%Z.

(** [plot_tsr_analysis(blade_radius, wind_speeds)].  No division of the
    function raises, so it always returns. *)
Definition plot_tsr_analysis (blade_radius : Q) (wind_speeds : list Q)
  : list PltCall :=
  [ figure 12 5;
    subplot 1 2 1;
    plot tsr_range (map Finite cp_values) (Some "b-") None (Some 2%Z);
    xlabel "Tip Speed Ratio (TSR)";
    ylabel "Power Coefficient (Cp)";
    title "Power Coefficient vs TSR";
    grid 0.3;
    subplot 1 2 2 ]
  ++ map (fun tsr : Z =>
            plot wind_speeds_range (rpm_values (inject_Z tsr) blade_radius)
                 None (Some (String.append "TSR=" (pretty tsr))) None)
         rpm_panel_tsrs
  ++ [ xlabel "Wind Speed (m/s)";
       ylabel "Generator RPM";
       title (String.append "RPM vs Wind Speed (R="
                (String.append (str_float blade_radius) "m)"));
       legend;
       grid 0.3;
       tight_layout;
       show ].

End Formatting.

(** The keys [power_curve] reads. *)
Definition power_curve_keys : list string :=
  ["blade_radius"; "air_density"; "cut_in"; "cut_out"].

Definition has_power_curve_keys (cfg : gmap string Q) : bool :=
  forallb (fun k => bool_decide (is_Some (cfg !! k))) power_curve_keys.

End Plot.

(** * Properties *)

(** ** Arithmetic helpers *)

Section NumFacts.
Import Num.

Lemma Qltb_lt (x y : Q) : Qltb x y = true <-> x < y.
Proof.
  unfold Qltb. rewrite negb_true_iff. split.
  - intros H. apply Qnot_le_lt. intros Hle.
    apply Qle_bool_iff in Hle. congruence.
  - intros H. destruct (Qle_bool y x) eqn:E; [|reflexivity].
    apply Qle_bool_iff in E. lra.
Qed.

Lemma Qltb_ge (x y : Q) : Qltb x y = false <-> y <= x.
Proof.
  unfold Qltb. rewrite negb_false_iff. apply Qle_bool_iff.
Qed.

Lemma Qle_bool_false (x y : Q) : Qle_bool x y = false <-> y < x.
Proof.
  rewrite <- Qltb_lt. unfold Qltb. rewrite negb_true_iff. reflexivity.
Qed.

Lemma Qcompare_zero_neq (q : Q) : ~ q == 0 -> (q ?= 0) <> Eq.
Proof. intros H E. apply H. apply Qeq_alt. exact E. Qed.

Lemma Qsquare_nonneg (a : Q) : 0 <= a * a.
Proof.
  unfold Qle, Qmult. simpl. rewrite Z.mul_1_r. apply Z.square_nonneg.
Qed.

Lemma np_pi_pos : 0 < np_pi.
Proof. reflexivity. Qed.

Lemma np_div_finite (a b : Q) :
  ~ b == 0 -> np_div (Finite a) (Finite b) = Finite (a / b).
Proof.
  intros Hb. unfold np_div.
  destruct (b ?= 0) eqn:E; try reflexivity.
  exfalso. now apply (Qcompare_zero_neq b).
Qed.

Lemma np_div_zero_not_finite (a b : Q) :
  b == 0 -> np_is_finite (np_div (Finite a) (Finite b)) = false.
Proof.
  intros Hb. unfold np_div. apply Qeq_alt in Hb. rewrite Hb.
  unfold signed_inf. destruct (a ?= 0); reflexivity.
Qed.

End NumFacts.

(** ** visualize.py *)

Section VisualizeFacts.
Import Num Visualize.

Lemma py_max0_max (cp : Q) : py_max0 cp == Qmax 0 cp.
Proof.
  unfold py_max0. destruct (cp ?= 0) eqn:E.
  - apply Qeq_alt in E. rewrite E. symmetry. apply Q.max_l. lra.
  - apply Qlt_alt in E. symmetry. apply Q.max_l. lra.
  - apply Qgt_alt in E. symmetry. apply Q.max_r. lra.
Qed.

Lemma py_max0_nonneg (cp : Q) : 0 <= py_max0 cp.
Proof.
  unfold py_max0. destruct (cp ?= 0) eqn:E; try lra.
  apply Qgt_alt in E. lra.
Qed.

Lemma cp_raw_factored (tsr : Q) :
  cp_raw tsr == 0.01 * tsr * (tsr - 5) * (tsr - 10).
Proof. unfold cp_raw. simpl. ring. Qed.

Lemma tsr_range_in_domain :
  forallb (fun t => Qle_bool 1 t && Qle_bool t 15) tsr_range = true.
Proof. vm_compute. reflexivity. Qed.

Lemma cp_values_nonneg : Forall (fun cp => 0 <= cp) cp_values.
Proof.
  unfold cp_values. apply Forall_map. apply Forall_forall.
  intros t _. apply py_max0_nonneg.
Qed.

(** C4: on the domain [1, 15] the value [plot_tsr_analysis] appends for a
    [tsr] is [max(0, 0.5 tsr (1 - 0.3 tsr + 0.02 tsr^2))], and it is never
    negative. *)
Theorem C4_cp_point_formula_nonneg (tsr : Q) :
  1 <= tsr <= 15 ->
  cp_point tsr == Cp_spec tsr /\ 0 <= cp_point tsr.
Proof.
  intros _. split.
  - unfold cp_point, Cp_spec. rewrite py_max0_max.
    assert (E : cp_raw tsr == 0.5 * tsr * (1 - 0.3 * tsr + 0.02 * (tsr * tsr)))
      by (unfold cp_raw; simpl; ring).
    rewrite E. reflexivity.
  - apply py_max0_nonneg.
Qed.

Lemma C4_cp_point_formula_nonneg_witness :
  1 <= 3 <= 15 /\ cp_point 3 == Cp_spec 3 /\ 0 <= cp_point 3.
Proof.
  assert (H : 1 <= 3 <= 15) by (split; discriminate).
  split; [exact H | exact (C4_cp_point_formula_nonneg 3 H)].
Defined.

Lemma cp_point_2 : cp_point 2 == 0.48.
Proof. reflexivity. Qed.
Lemma cp_point_3 : cp_point 3 == 0.42.
Proof. reflexivity. Qed.
Lemma cp_point_5 : cp_point 5 == 0.
Proof. reflexivity. Qed.
Lemma cp_point_11 : cp_point 11 == 0.66.
Proof. reflexivity. Qed.

Lemma cp_point_not_unimodal : ~ exists opt, unimodal_on cp_point 1 15 opt.
Proof.
  intros [opt (Hlo & Hhi & Hup & Hdown)].
  destruct (Qlt_le_dec opt 3) as [Hlt | Hge].
  - assert (H := Hdown 5 11). rewrite cp_point_5, cp_point_11 in H. lra.
  - assert (H := Hup 2 3). rewrite cp_point_2, cp_point_3 in H. lra.
Qed.

(** C2: the curve of [plot_tsr_analysis] does not have the required shape.
    At the last sample, [tsr = 15], it is 7.5, above the Betz limit; it
    falls from 0.48 at [tsr = 2] to 0 at [tsr = 5] and rises again to 0.66
    at [tsr = 11], so no interior optimum makes it rise and then fall. *)
Theorem C2_cp_curve_shape_violated :
  List.last tsr_range 0 = 15 /\
  cp_point 15 == 7.5 /\ betz_limit < cp_point 15 /\
  cp_point 5 < cp_point 2 /\ cp_point 5 < cp_point 11 /\
  ~ exists opt, unimodal_on cp_point 1 15 opt.
Proof.
  split; [vm_compute; reflexivity|].
  split; [reflexivity|].
  split; [reflexivity|].
  split; [reflexivity|].
  split; [reflexivity|].
  exact cp_point_not_unimodal.
Qed.

(** C5: [power_curve] takes [Cp = 0.4] at its operating point [tsr = 7.0],
    while the curve of [plot_tsr_analysis] is 0 there (the polynomial is
    -0.42 and is clamped): the two power coefficients differ. *)
Theorem C5_power_curve_cp_differs_from_tsr_curve :
  power_curve_tsr == 7 /\ power_curve_cp == 0.4 /\
  cp_raw power_curve_tsr == -0.42 /\
  cp_point power_curve_tsr == 0 /\
  ~ power_curve_cp == cp_point power_curve_tsr.
Proof.
  repeat split; try reflexivity.
  intros H. discriminate H.
Qed.

End VisualizeFacts.

(** ** visualize.py: the power curve and the RPM panel *)

Section PowerCurveFacts.
Import Num Visualize.

Lemma zip_zip_with_map {A B : Type} (f : A -> B -> B) (g : A -> B) (l : list A) :
  zip l (zip_with f l (map g l)) = map (fun x => (x, f x (g x))) l.
Proof.
  induction l as [|x l IH]; simpl; [reflexivity|].
  f_equal. exact IH.
Qed.

(** C6: every row [(v, p)] of the frame [power_curve] returns has
    [p = Cp * 0.5 * air_density * (pi * blade_radius^2) * v^3] with
    [Cp = 0.4] when [cut_in <= v <= cut_out], and [p = 0] when [v] is
    outside the envelope; the wind speeds are the [linspace] samples. *)
Theorem C6_power_curve_rows (cfg : gmap string Q) (r rho cin cout : Q)
    (min_v max_v : Q) (steps : nat) :
  cfg !! "blade_radius" = Some r ->
  cfg !! "air_density" = Some rho ->
  cfg !! "cut_in" = Some cin ->
  cfg !! "cut_out" = Some cout ->
  exists rows,
    power_curve cfg min_v max_v steps = Some rows /\
    map fst rows = linspace min_v max_v steps /\
    forall v p, In (v, p) rows ->
      (cin <= v /\ v <= cout ->
         p == 0.4 * 0.5 * rho * (np_pi * r ^ 2) * v ^ 3) /\
      (v < cin \/ cout < v -> p = 0).
Proof.
  intros Hr Hrho Hcin Hcout.
  unfold power_curve. rewrite Hr, Hrho, Hcin, Hcout. simpl.
  rewrite zip_zip_with_map.
  eexists. split; [reflexivity|]. split.
  - rewrite map_map. simpl. apply map_id.
  - intros v p Hin. apply in_map_iff in Hin.
    destruct Hin as (x & Heq & _). inversion Heq; subst x p; clear Heq.
    split.
    + intros [H1 H2].
      apply Qltb_ge in H1. apply Qltb_ge in H2. rewrite H1, H2. simpl.
      unfold power_curve_cp. reflexivity.
    + intros [H | H]; apply Qltb_lt in H; rewrite H; simpl.
      * reflexivity.
      * rewrite orb_true_r. reflexivity.
Qed.

Lemma C6_power_curve_rows_witness :
  exists rows,
    power_curve example_cfg 0 25 6 = Some rows /\
    map fst rows = linspace 0 25 6 /\
    forall v p, In (v, p) rows ->
      (2.5 <= v /\ v <= 25.0 ->
         p == 0.4 * 0.5 * 1.225 * (np_pi * 0.6 ^ 2) * v ^ 3) /\
      (v < 2.5 \/ 25.0 < v -> p = 0).
Proof.
  apply (C6_power_curve_rows example_cfg 0.6 1.225 2.5 25.0 0 25 6);
    reflexivity.
Defined.

Lemma rpm_point_zero_radius (tsr v r : Q) :
  r == 0 -> np_is_finite (rpm_point tsr v r) = false.
Proof.
  intros Hr. unfold rpm_point, np_div at 2.
  apply Qeq_alt in Hr. rewrite Hr.
  unfold signed_inf. destruct (tsr * v ?= 0); reflexivity.
Qed.

(** C7, as the code has it: for every radius other than zero, negative ones
    included, the RPM of one loop iteration is [omega * 60 / (2 pi)] with
    [omega = tsr * v / r]; the computation does not fail. *)
Theorem C7_rpm_point_formula (tsr v r : Q) :
  ~ r == 0 ->
  exists rpm, rpm_point tsr v r = Finite rpm /\
              rpm == shaftRpm_spec tsr v r.
Proof.
  intros Hr. unfold rpm_point.
  rewrite (np_div_finite _ _ Hr). cbn [np_mul].
  rewrite np_div_finite by (intros H; discriminate H).
  eexists. split; [reflexivity|].
  unfold shaftRpm_spec. field. split; [exact Hr|].
  intros H. pose proof np_pi_pos. lra.
Qed.

Lemma C7_rpm_point_formula_witness :
  ~ -(1 # 2) == 0 /\
  exists rpm, rpm_point 6 2 (-(1 # 2)) = Finite rpm /\
              rpm == shaftRpm_spec 6 2 (-(1 # 2)).
Proof.
  assert (H : ~ -(1 # 2) == 0) by (intros H; discriminate H).
  split; [exact H | exact (C7_rpm_point_formula 6 2 (-(1 # 2)) H)].
Defined.

(** C7 as stated fails: at the radius -1/2 the computation is defined, and
    yields a finite, negative RPM. *)
Lemma C7_negative_radius_is_defined :
  -(1 # 2) <= 0 /\
  np_is_finite (rpm_point 6 2 (-(1 # 2))) = true /\
  exists rpm, rpm_point 6 2 (-(1 # 2)) = Finite rpm /\ rpm < 0.
Proof.
  split; [discriminate|]. split; [reflexivity|].
  eexists. split; [reflexivity|]. reflexivity.
Qed.

End PowerCurveFacts.

(** ** The sizing solver *)

Section SolverFacts.
Import Num WindCalc.

Variable powerCoefficient : Q -> Q.
Variable tsr_opt : Q.
Variable nominalGeneratorRpm : GeneratorType -> Q.

Lemma validate_violates (cfg : TurbineConfig) (field : Field) :
  validate cfg = Some field -> violates cfg field = true.
Proof.
  unfold validate. intros H. apply List.find_some in H. apply H.
Qed.

Lemma validate_none (cfg : TurbineConfig) :
  validate cfg = None -> forall field, violates cfg field = false.
Proof.
  unfold validate. intros H field.
  apply (List.find_none _ _ H). destruct field; simpl; tauto.
Qed.


(** A field that breaks its bound cannot have passed validation. *)
Local Ltac offending Hnone field :=
  specialize (Hnone field); simpl in Hnone; congruence.

Lemma validate_rejects (cfg : TurbineConfig) :
  air_density (env cfg) <= 0 \/ wind_speed (env cfg) <= 0 \/
  blade_radius (constraints cfg) <= 0 \/ (num_blades (constraints cfg) < 1)%Z \/
  target_wattage cfg <= 0 ->
  exists field, validate cfg = Some field.
Proof.
  intros H. destruct (validate cfg) as [field|] eqn:E; [eauto|].
  exfalso. pose proof (validate_none cfg E) as Hnone.
  destruct H as [H | [H | [H | [H | H]]]];
    try apply Qle_bool_iff in H; try apply Z.ltb_lt in H.
  - offending Hnone air_density_field.
  - offending Hnone wind_speed_field.
  - offending Hnone blade_radius_field.
  - offending Hnone num_blades_field.
  - offending Hnone target_wattage_field.
Qed.

(** When a single field breaks its bound, it is the one reported. *)
Lemma validate_sole_offender (cfg : TurbineConfig) (field : Field) :
  violates cfg field = true ->
  (forall other, violates cfg other = true -> other = field) ->
  validate cfg = Some field.
Proof.
  intros Hv Honly. destruct (validate cfg) as [reported|] eqn:E.
  - f_equal. apply Honly. exact (validate_violates cfg reported E).
  - rewrite (validate_none cfg E field) in Hv. discriminate Hv.
Qed.

(** C3: a configuration with [air_density <= 0], [wind_speed <= 0],
    [blade_radius <= 0], [num_blades < 1] or [target_wattage <= 0] makes the
    solver fail with [InvalidInput] naming a field that breaks its bound; the
    failure comes from validation, with no evaluation of the power curve,
    and no summary is produced. *)
Theorem C3_invalid_input_rejected (cfg : TurbineConfig) :
  air_density (env cfg) <= 0 \/ wind_speed (env cfg) <= 0 \/
  blade_radius (constraints cfg) <= 0 \/ (num_blades (constraints cfg) < 1)%Z \/
  target_wattage cfg <= 0 ->
  exists field,
    solve powerCoefficient tsr_opt nominalGeneratorRpm cfg
      = (Err (InvalidInput field), 0%nat) /\
    validate cfg = Some field /\
    violates cfg field = true /\
    forall s, solver_result powerCoefficient tsr_opt nominalGeneratorRpm cfg <> Ok s.
Proof.
  intros H. destruct (validate_rejects cfg H) as [field Hv].
  exists field.
  assert (E : solve powerCoefficient tsr_opt nominalGeneratorRpm cfg
              = (Err (InvalidInput field), 0%nat))
    by (unfold solve; rewrite Hv; reflexivity).
  split; [exact E|]. split; [exact Hv|].
  split; [exact (validate_violates cfg field Hv)|].
  intros s. unfold solver_result. rewrite E. simpl. discriminate.
Qed.



(** The search is bounded: at most [fuel + 1] evaluations. *)
Lemma bisect_bounded (power : Q -> Q) (target : Q) (fuel : nat) :
  forall lo hi, (snd (bisect power target fuel lo hi) <= S fuel)%nat.
Proof.
  induction fuel as [|fuel IH]; intros lo hi; cbn [bisect].
  - destruct (Qltb _ _); simpl; lia.
  - destruct (Qltb (Qabs _) _); simpl; [lia|].
    destruct (Qltb (power _) target).
    + specialize (IH (Qred ((lo + hi) / 2)) hi).
      destruct (bisect _ _ _ _ _) as [r m]. simpl in *. lia.
    + specialize (IH lo (Qred ((lo + hi) / 2))).
      destruct (bisect _ _ _ _ _) as [r m]. simpl in *. lia.
Qed.


Lemma availablePower_factor (e : Env) (area t : Q) :
  availablePower powerCoefficient t e area ==
  powerCoefficient t *
  (0.5 * air_density e * area * (wind_speed e * wind_speed e * wind_speed e)).
Proof. unfold availablePower. simpl. ring. Qed.

Lemma availablePower_le (e : Env) (area t u : Q) :
  0 <= air_density e -> 0 <= area -> 0 <= wind_speed e ->
  powerCoefficient t <= powerCoefficient u ->
  availablePower powerCoefficient t e area
  <= availablePower powerCoefficient u e area.
Proof.
  intros Hrho Harea Hv Hcp. rewrite !availablePower_factor.
  apply Qmult_le_compat_r; [assumption|].
  repeat apply Qmult_le_0_compat; try assumption. discriminate.
Qed.

Lemma rotorArea_nonneg (r : Q) : 0 <= rotorArea r.
Proof.
  unfold rotorArea. simpl. pose proof np_pi_pos.
  assert (0 <= r * r) by nra. nra.
Qed.







Section Convergence.

(** A power curve that rises on [[a, b]] no faster than [c] per unit. *)
Variable power : Q -> Q.
Variables a b c target : Q.
Hypothesis rises :
  forall x y, a <= x -> x < y -> y <= b ->
              power x < power y /\ power y - power x <= c * (y - x).


End Convergence.








End SolverFacts.

Section SampleModelFacts.
Import Num WindCalc.



Lemma C3_invalid_input_rejected_witness :
  exists field,
    sample_solve (scenario 0) = (Err (InvalidInput field), 0%nat) /\
    validate (scenario 0) = Some field /\
    violates (scenario 0) field = true /\
    forall s, fst (sample_solve (scenario 0)) <> Ok s.
Proof.
  apply (C3_invalid_input_rejected sample_powerCoefficient sample_tsr_opt
           sample_nominalGeneratorRpm (scenario 0)).
  right. right. right. right. simpl. discriminate.
Defined.

(** The rejections listed in section 8, each naming the field that was set
    out of bounds. *)
Example rejects_air_density :
  sample_solve {| target_wattage := 50;
                  env := {| air_density := 0; wind_speed := 6.0 |};
                  constraints := constraints (scenario 50) |}
  = (Err (InvalidInput air_density_field), 0%nat).
Proof. reflexivity. Qed.

Example rejects_wind_speed :
  sample_solve {| target_wattage := 50;
                  env := {| air_density := 1.225; wind_speed := -1 |};
                  constraints := constraints (scenario 50) |}
  = (Err (InvalidInput wind_speed_field), 0%nat).
Proof. reflexivity. Qed.

Example rejects_blade_radius :
  sample_solve {| target_wattage := 50;
                  env := env (scenario 50);
                  constraints := {| blade_radius := 0; num_blades := 3;
                                    generator_type := Brushless |} |}
  = (Err (InvalidInput blade_radius_field), 0%nat).
Proof. reflexivity. Qed.

Example rejects_num_blades :
  sample_solve {| target_wattage := 50;
                  env := env (scenario 50);
                  constraints := {| blade_radius := 0.5; num_blades := 0;
                                    generator_type := Brushless |} |}
  = (Err (InvalidInput num_blades_field), 0%nat).
Proof. reflexivity. Qed.

Example rejects_target_wattage :
  sample_solve (scenario 0) = (Err (InvalidInput target_wattage_field), 0%nat).
Proof. reflexivity. Qed.


(** The two scenarios of section 8 on the sample model. *)
Example scenario_50_succeeds :
  exists s, sample_solve (scenario 50) = (Ok s, 13%nat) /\
            DesignSummary.tsr s == 92443 # 16384 /\
            DesignSummary.blade_length s = 0.5 /\
            DesignSummary.cut_in s = 2.5 /\ DesignSummary.cut_out s = 25.0.
Proof. eexists. split; [vm_compute; reflexivity|]. repeat split. Qed.

Example scenario_million_infeasible :
  exists p_max, sample_solve (scenario 1000000)
                = (Err (InfeasibleDesign p_max), 1%nat) /\ p_max < 55.
Proof. eexists. split; [vm_compute; reflexivity|]. reflexivity. Qed.

(** A target just below [P_max] (about 54.617 W) is solved on the sample
    model. *)
Example scenario_just_below_succeeds :
  exists s, sample_solve (scenario 54.6) = (Ok s, 7%nat) /\
            DesignSummary.tsr s < sample_tsr_opt.
Proof. eexists. split; [vm_compute; reflexivity|]. reflexivity. Qed.

(** On the sample curve the scenario of section 8 with a target of 1 W is
    valid and below [P_max], yet the power at [TSR_MIN] already exceeds
    1 W and the search ends with [SolverDidNotConverge]. *)
Example scenario_1_does_not_converge :
  validate (scenario 1) = None /\
  target_wattage (scenario 1)
  < availablePower sample_powerCoefficient TSR_MIN
      (env (scenario 1)) (rotorArea (blade_radius (constraints (scenario 1)))) /\
  sample_solve (scenario 1) = (Err SolverDidNotConverge, 102%nat).
Proof. repeat split; vm_compute; reflexivity. Qed.




End SampleModelFacts.

(** ** cli.py *)

Section CliFacts.
Import WindCalc Py Cli.

Lemma replace_from_no_occurrence (old new s : string) :
  contains old s = false -> replace_from old new 0 s = s.
Proof.
  induction s as [|c s IH]; intros H; [reflexivity|].
  cbn [contains] in H. apply orb_false_iff in H. destruct H as [Hp Hc].
  cbn [replace_from]. rewrite Hp. f_equal. apply IH. exact Hc.
Qed.

Lemma csv_path_fixed (output : string) :
  contains ".json" output = false -> csv_path output = output.
Proof. apply replace_from_no_occurrence. Qed.

(** The three equations that determine [csv_path]: every occurrence of
    [.json], scanning from the left, becomes [.csv]; every other character
    is copied. *)
Lemma csv_path_empty : csv_path "" = "".
Proof. reflexivity. Qed.

Lemma csv_path_occurrence (rest : string) :
  csv_path (String.append ".json" rest) = String.append ".csv" (csv_path rest).
Proof. destruct rest; reflexivity. Qed.

Lemma csv_path_other (c : Ascii.ascii) (rest : string) :
  String.prefix ".json" (String c rest) = false ->
  csv_path (String c rest) = String c (csv_path rest).
Proof.
  intros H. unfold csv_path, py_replace. cbn [replace_from]. rewrite H.
  reflexivity.
Qed.

Example csv_path_default : csv_path "summary.json" = "summary.csv".
Proof. reflexivity. Qed.

Example csv_path_two_occurrences :
  csv_path "runs.json/summary.json" = "runs.csv/summary.csv".
Proof. reflexivity. Qed.

(** The character [.]. *)
Local Abbreviation dot := (Ascii.Ascii false true true true false true false false).

Lemma prefix_empty (s : string) : String.prefix "" s = true.
Proof. destruct s; reflexivity. Qed.

Lemma prefix_split (p s : string) :
  String.prefix p s = true -> exists rest, s = String.append p rest.
Proof.
  revert s. induction p as [|a p IH]; intros s H.
  - exists s. reflexivity.
  - destruct s as [|b s]; [discriminate H|].
    cbn [String.prefix] in H.
    destruct (Ascii.ascii_dec a b) as [->|]; [|discriminate H].
    destruct (IH s H) as [rest ->]. exists rest. reflexivity.
Qed.

Lemma csv_path_json_prefix (s : string) :
  String.prefix ".json" s = true ->
  exists rest,
    s = String.append ".json" rest /\
    csv_path s = String.append ".csv" (csv_path rest).
Proof.
  intros H. destruct (prefix_split _ _ H) as [rest ->].
  exists rest. split; [reflexivity | apply csv_path_occurrence].
Qed.

(** A character other than the dot that heads a prefix of the CSV path was
    copied from the same place of the output path. *)
Lemma csv_path_prefix_step (a : Ascii.ascii) (p : string) :
  a <> dot ->
  (forall s, String.prefix p (csv_path s) = true -> String.prefix p s = true) ->
  forall s, String.prefix (String a p) (csv_path s) = true ->
            String.prefix (String a p) s = true.
Proof.
  intros Ha IH s H. destruct s as [|d s]; [discriminate H|].
  destruct (String.prefix ".json" (String d s)) eqn:E.
  - destruct (csv_path_json_prefix _ E) as (rest & _ & Hcsv).
    rewrite Hcsv in H. cbv [String.append] in H. cbn [String.prefix] in H.
    destruct (Ascii.ascii_dec a dot); [contradiction | discriminate H].
  - rewrite (csv_path_other d s E) in H. cbn [String.prefix] in H |- *.
    destruct (Ascii.ascii_dec a d); [|discriminate H].
    apply IH. exact H.
Qed.

Lemma csv_path_json_tail (s : string) :
  String.prefix "json" (csv_path s) = true -> String.prefix "json" s = true.
Proof.
  revert s.
  repeat (apply csv_path_prefix_step; [discriminate|]).
  intros s _. apply prefix_empty.
Qed.

Lemma contains_after_csv (t : string) :
  contains ".json" (String.append ".csv" t) = contains ".json" t.
Proof. reflexivity. Qed.

Lemma csv_path_no_json_bounded (n : nat) :
  forall s, (String.length s <= n)%nat -> contains ".json" (csv_path s) = false.
Proof.
  induction n as [|n IH]; intros s Hlen.
  - destruct s; [reflexivity | simpl in Hlen; lia].
  - destruct s as [|c s]; [reflexivity|].
    destruct (String.prefix ".json" (String c s)) eqn:E.
    + destruct (csv_path_json_prefix _ E) as (rest & Hs & Hcsv).
      rewrite Hcsv, contains_after_csv. apply IH.
      rewrite Hs in Hlen. cbv [String.append] in Hlen. simpl in Hlen. lia.
    + rewrite (csv_path_other c s E).
      cbn [contains]. rewrite (IH s) by (simpl in Hlen; lia).
      rewrite orb_false_r.
      destruct (String.prefix ".json" (String c (csv_path s))) eqn:E'; [|reflexivity].
      exfalso. cbn [String.prefix] in E, E'.
      destruct (Ascii.ascii_dec dot c); [|discriminate E'].
      rewrite (csv_path_json_tail s E') in E. discriminate E.
Qed.

Lemma csv_path_clean (output : string) :
  contains ".json" (csv_path output) = false.
Proof. apply (csv_path_no_json_bounded (String.length output)). lia. Qed.

Lemma csv_path_changes (output : string) :
  contains ".json" output = true -> csv_path output <> output.
Proof.
  intros Hc H. pose proof (csv_path_clean output) as Hclean.
  rewrite H in Hclean. congruence.
Qed.





Variable design_summary : TurbineConfig -> Outcome Dict.

Lemma design_files (a : Args) (w : World) (summary : Dict) :
  design_summary (config_of_args a) = inr summary ->
  writable w (output a) = true ->
  writable w (csv_path (output a)) = true ->
  design design_summary a w
  = (ret tt,
     {| files := <[csv_path (output a) := to_csv summary]>
                   (<[output a := json_dump summary]> (files w));
        stdout := (stdout w
                   ++ [String.append "Design written to " (output a)])
                  ++ [String.append "CSV written to " (csv_path (output a))] |}).
Proof.
  intros H Hw1 Hw2. unfold design, write_file. rewrite H, Hw1. cbn [ret].
  assert (Hw2' : writable
            (echo (String.append "Design written to " (output a))
               {| files := <[output a := json_dump summary]> (files w);
                  stdout := stdout w |})
            (csv_path (output a)) = true).
  { unfold writable, echo in *. cbn [files] in *.
    destruct (decide (output a = csv_path (output a))) as [E|E].
    - rewrite <- E, lookup_insert_eq. reflexivity.
    - rewrite lookup_insert_ne by exact E. exact Hw2. }
  rewrite Hw2'. reflexivity.
Qed.

Lemma design_failure (a : Args) (w : World) (e : Exception) :
  design_summary (config_of_args a) = inl e ->
  design design_summary a w = (raise e, w).
Proof. intros H. unfold design. rewrite H. reflexivity. Qed.


Lemma design_overwrite (a : Args) (w : World) (summary : Dict) :
  design_summary (config_of_args a) = inr summary ->
  contains ".json" (output a) = false ->
  writable w (output a) = true ->
  fst (design design_summary a w) = ret tt /\
  files (snd (design design_summary a w))
  = <[output a := to_csv summary]> (files w).
Proof.
  intros Hs Hc Hw.
  assert (Hw2 : writable w (csv_path (output a)) = true)
    by (rewrite (csv_path_fixed _ Hc); exact Hw).
  rewrite (design_files a w summary Hs Hw Hw2). cbn [fst snd files].
  split; [reflexivity|].
  rewrite (csv_path_fixed _ Hc). apply insert_insert_eq.
Qed.

Lemma holds_json_after_overwrite (w w' : World) (p : string) (summary : Dict) :
  files w' = <[p := to_csv summary]> (files w) ->
  forall path, holds_json w' path = true ->
               path <> p /\ holds_json w path = true.
Proof.
  intros Hf path Hp. unfold holds_json in *. rewrite Hf in Hp.
  destruct (decide (path = p)) as [->|Hne].
  - rewrite lookup_insert_eq in Hp. discriminate Hp.
  - split; [exact Hne|]. rewrite lookup_insert_ne in Hp by congruence.
    exact Hp.
Qed.


End CliFacts.

Section CliRuns.
Import WindCalc Py Cli.

Lemma sample_summary_50 :
  exists summary, sample_design_summary (config_of_args args_txt) = inr summary /\
    keys summary = ["rotor_area"; "blade_length"; "tsr"; "rpm"; "gear_ratio";
                    "generator_type"; "cut_in"; "cut_out"].
Proof. eexists. split; [vm_compute; reflexivity|]. reflexivity. Qed.


(** C8: with the default [--output summary.json] the command leaves the JSON
    object with the eight fields and the CSV table beside it; with
    [--output summary.txt] the command succeeds, announces "Design written to
    summary.txt", and leaves a single file, [summary.txt], holding the CSV
    table: the JSON object it wrote there is gone and there is no sibling
    CSV. *)
Theorem C8_output_without_json_suffix :
  let fields := ["rotor_area"; "blade_length"; "tsr"; "rpm"; "gear_ratio";
                 "generator_type"; "cut_in"; "cut_out"] in
  (exists summary row,
     design sample_design_summary (default_args 50) empty_world
     = (ret tt,
        {| files := <["summary.csv" := CsvTable fields [row]]>
                      (<["summary.json" := JsonObject summary]> ∅);
           stdout := ["Design written to summary.json";
                      "CSV written to summary.csv"] |}) /\
     keys summary = fields) /\
  (exists row,
     design sample_design_summary args_txt empty_world
     = (ret tt,
        {| files := <["summary.txt" := CsvTable fields [row]]> ∅;
           stdout := ["Design written to summary.txt";
                      "CSV written to summary.txt"] |})) /\
  (forall path,
     holds_json (snd (design sample_design_summary args_txt empty_world)) path
     = false).
Proof.
  intros fields. split; [|split].
  - eexists. eexists. split; [vm_compute; reflexivity|]. reflexivity.
  - eexists. vm_compute. reflexivity.
  - intros path.
    destruct sample_summary_50 as (summary & Hs & _).
    destruct (design_overwrite sample_design_summary args_txt empty_world
                summary Hs eq_refl eq_refl) as [_ Hf].
    destruct (holds_json _ path) eqn:E; [|reflexivity].
    destruct (holds_json_after_overwrite _ _ _ _ Hf path E) as [_ Hw].
    unfold holds_json, empty_world in Hw.
    simpl in Hw. rewrite lookup_empty in Hw. discriminate Hw.
Qed.

End CliRuns.

(** ** gui.py *)

Section GuiFacts.
Import WindCalc Py Gui.

Variable py_float : string -> Outcome Q.
Variable py_int : string -> Outcome Z.
Variable str : Exception -> string.
Variable json_dumps : Dict -> string.
Variable design_summary : TurbineConfig -> Outcome Dict.

Lemma bind_inr {A B : Type} (m : Outcome A) (k : A -> Outcome B) (b : B) :
  Py.bind m k = inr b -> exists a, m = inr a /\ k a = inr b.
Proof.
  destruct m as [e|a]; simpl; intros H; [discriminate H|].
  exists a. split; [reflexivity | exact H].
Qed.

Lemma build_config_fields (f : Form) (cfg : TurbineConfig) :
  build_config py_float py_int f = inr cfg ->
  exists target rho v r n,
    py_float (wattage f) = inr target /\
    py_float (air_density f) = inr rho /\
    py_float (wind_speed f) = inr v /\
    py_float (radius f) = inr r /\
    py_int (blades f) = inr n /\
    cfg = {| target_wattage := target;
             env := {| WindCalc.air_density := rho; WindCalc.wind_speed := v |};
             constraints := {| blade_radius := r; num_blades := n;
                               generator_type := Brushless |} |}.
Proof.
  unfold build_config. intros H.
  apply bind_inr in H. destruct H as (target & Ht & H).
  apply bind_inr in H. destruct H as (rho & Hrho & H).
  apply bind_inr in H. destruct H as (v & Hv & H).
  apply bind_inr in H. destruct H as (r & Hr & H).
  apply bind_inr in H. destruct H as (n & Hn & H).
  exists target, rho, v, r, n. unfold ret in H. inversion H. auto 10.
Qed.

(** C9, as the code has it: the form holds five texts (target wattage, air
    density, wind speed, blade radius, number of blades) and no generator
    type; Generate parses the five, passes them to the solver in a
    configuration whose generator type is always [Brushless], shows the error
    text in a failure dialog when parsing or solving raises, and shows the
    summary otherwise. *)
Theorem C9_gui_generate (f : Form) :
  (forall cfg, build_config py_float py_int f = inr cfg ->
     py_float (wattage f) = inr (target_wattage cfg) /\
     py_float (air_density f) = inr (WindCalc.air_density (env cfg)) /\
     py_float (wind_speed f) = inr (WindCalc.wind_speed (env cfg)) /\
     py_float (radius f) = inr (blade_radius (constraints cfg)) /\
     py_int (blades f) = inr (num_blades (constraints cfg)) /\
     generator_type (constraints cfg) = Brushless) /\
  (forall e,
     build_config py_float py_int f = inl e \/
     (exists cfg, build_config py_float py_int f = inr cfg /\
                  design_summary cfg = inl e) ->
     generate py_float py_int str json_dumps design_summary f
     = critical "Error" (str e)) /\
  (forall cfg summary,
     build_config py_float py_int f = inr cfg ->
     design_summary cfg = inr summary ->
     generate py_float py_int str json_dumps design_summary f
     = information "Design Summary" (json_dumps summary)).
Proof.
  split; [|split].
  - intros cfg H. apply build_config_fields in H.
    destruct H as (target & rho & v & r & n & Ht & Hrho & Hv & Hr & Hn & ->).
    simpl. auto 10.
  - intros e [H | (cfg & H & Hs)]; unfold generate; rewrite H; simpl.
    + reflexivity.
    + rewrite Hs. reflexivity.
  - intros cfg summary H Hs. unfold generate. rewrite H. simpl.
    rewrite Hs. reflexivity.
Qed.

End GuiFacts.

Section GuiGenerator.
Import WindCalc Py Gui.

(** The sibling front-end does take the generator type from the user. *)
Lemma cli_generator_choice (a : Cli.Args) :
  generator_type (constraints (Cli.config_of_args a))
  = if String.eqb (Cli.generator a) "brushless" then Brushless else Brushed.
Proof. reflexivity. Qed.

(** C9 as stated fails: whatever the parsers return and whatever the form
    holds, the configuration handed to the solver is never [Brushed]; the
    user has no way to give the generator type. *)
Lemma C9_gui_never_brushed :
  ~ exists (py_float : string -> Outcome Q) (py_int : string -> Outcome Z)
           (f : Form) (cfg : TurbineConfig),
      build_config py_float py_int f = inr cfg /\
      generator_type (constraints cfg) = Brushed.
Proof.
  intros (py_float & py_int & f & cfg & H & Hg).
  apply build_config_fields in H.
  destruct H as (target & rho & v & r & n & _ & _ & _ & _ & _ & ->).
  simpl in Hg. discriminate Hg.
Qed.

End GuiGenerator.

(** * Further properties of the front-ends *)

(** ** visualize.py: sampling and the power curve *)

Section SamplingFacts.
Import Num Visualize.

Lemma removelast_map_seq {A : Type} (f : nat -> A) (n : nat) :
  removelast (map f (seq 0 (S n))) = map f (seq 0 n).
Proof.
  rewrite seq_S, map_app. simpl. apply removelast_last.
Qed.

Lemma linspace_many (start stop : Q) (n : nat) :
  linspace start stop (S (S n))
  = map (fun i : nat =>
           inject_Z (Z.of_nat i) * ((stop - start) / inject_Z (Z.of_nat (S n)))
           + start) (seq 0 (S n)) ++ [stop].
Proof.
  unfold linspace.
  replace (S (S n) - 1)%nat with (S n) by lia.
  replace (1 <? S (S n))%nat with true by (symmetry; apply Nat.ltb_lt; lia).
  cbv zeta. rewrite removelast_map_seq. reflexivity.
Qed.

Lemma linspace_length (start stop : Q) (num : nat) :
  length (linspace start stop num) = num.
Proof.
  destruct num as [|[|n]]; [reflexivity | reflexivity |].
  rewrite linspace_many, length_app, length_map, length_seq. simpl. lia.
Qed.

(** A sample offset never exceeds the span. *)
Lemma sample_offset_bounds (span : Q) (i d : nat) :
  0 <= span -> (i <= d)%nat ->
  0 <= inject_Z (Z.of_nat i) * (span / inject_Z (Z.of_nat d)) /\
  inject_Z (Z.of_nat i) * (span / inject_Z (Z.of_nat d)) <= span.
Proof.
  intros Hspan Hi.
  assert (Hi0 : 0 <= inject_Z (Z.of_nat i))
    by (change 0 with (inject_Z 0); rewrite <- Zle_Qle; lia).
  assert (Hd0 : 0 <= inject_Z (Z.of_nat d))
    by (change 0 with (inject_Z 0); rewrite <- Zle_Qle; lia).
  assert (Hid : inject_Z (Z.of_nat i) <= inject_Z (Z.of_nat d))
    by (rewrite <- Zle_Qle; lia).
  assert (Hstep : 0 <= span / inject_Z (Z.of_nat d)).
  { unfold Qdiv. apply Qmult_le_0_compat; [exact Hspan|].
    apply Qinv_le_0_compat. exact Hd0. }
  split; [apply Qmult_le_0_compat; assumption|].
  destruct d as [|d].
  - assert (i = 0)%nat by lia. subst i.
    change (inject_Z (Z.of_nat 0)) with 0. rewrite Qmult_0_l. exact Hspan.
  - apply Qle_trans
      with (inject_Z (Z.of_nat (S d)) * (span / inject_Z (Z.of_nat (S d)))).
    + apply Qmult_le_compat_r; assumption.
    + apply Qle_lteq. right. field.
      intros H. unfold Qeq in H. simpl in H. lia.
Qed.

Lemma linspace_bounds (start stop : Q) (num : nat) (x : Q) :
  start <= stop -> In x (linspace start stop num) ->
  start <= x /\ x <= stop.
Proof.
  intros Hle Hin.
  assert (Hspan : 0 <= stop - start) by lra.
  destruct num as [|[|n]].
  - destruct Hin.
  - destruct Hin as [<-|[]].
    destruct (sample_offset_bounds (stop - start) 0 0 Hspan (le_n 0)).
    simpl in *. lra.
  - rewrite linspace_many in Hin. apply in_app_or in Hin.
    destruct Hin as [Hin | [<- | []]]; [|lra].
    apply in_map_iff in Hin. destruct Hin as (i & <- & Hi).
    apply in_seq in Hi.
    destruct (sample_offset_bounds (stop - start) i (S n) Hspan) as [H1 H2];
      [lia|]. lra.
Qed.

(** With two samples or more the first is the start and the last is the
    stop. *)
Lemma linspace_ends (start stop : Q) (n : nat) :
  exists first middle,
    linspace start stop (S (S n)) = first :: middle ++ [stop] /\
    first == start.
Proof.
  rewrite linspace_many. rewrite <- cons_seq. simpl.
  eexists. eexists. split; [reflexivity|]. ring.
Qed.

End SamplingFacts.

Section PowerCurveMore.
Import Num Visualize.

(** The frame, row by row. *)
Lemma power_curve_rows_eq (cfg : gmap string Q) (r rho cin cout : Q)
    (min_v max_v : Q) (steps : nat) :
  cfg !! "blade_radius" = Some r ->
  cfg !! "air_density" = Some rho ->
  cfg !! "cut_in" = Some cin ->
  cfg !! "cut_out" = Some cout ->
  power_curve cfg min_v max_v steps
  = Some (map (fun v =>
                 (v, if Qltb v cin || Qltb cout v then 0
                     else power_curve_cp * 0.5 * rho * (np_pi * r ^ 2) * v ^ 3))
              (linspace min_v max_v steps)).
Proof.
  intros Hr Hrho Hcin Hcout.
  unfold power_curve. rewrite Hr, Hrho, Hcin, Hcout. simpl.
  rewrite zip_zip_with_map. reflexivity.
Qed.

Lemma power_curve_some_keys (cfg : gmap string Q) (min_v max_v : Q)
    (steps : nat) (rows : list (Q * Q)) :
  power_curve cfg min_v max_v steps = Some rows ->
  exists r rho cin cout,
    cfg !! "blade_radius" = Some r /\ cfg !! "air_density" = Some rho /\
    cfg !! "cut_in" = Some cin /\ cfg !! "cut_out" = Some cout.
Proof.
  unfold power_curve. intros H.
  destruct (cfg !! "blade_radius") as [r|]; [|discriminate H].
  destruct (cfg !! "air_density") as [rho|]; [|discriminate H].
  destruct (cfg !! "cut_in") as [cin|]; [|discriminate H].
  destruct (cfg !! "cut_out") as [cout|]; [|discriminate H].
  eauto 10.
Qed.

(** X1: a configuration that lacks one of the keys [blade_radius],
    [air_density], [cut_in], [cut_out] never yields a frame, whatever the
    sampling arguments: every frame [power_curve] returns comes from a
    configuration holding all four. *)
Theorem power_curve_missing_key (cfg : gmap string Q) (min_v max_v : Q)
    (steps : nat) :
  (cfg !! "blade_radius" = None \/ cfg !! "air_density" = None \/
   cfg !! "cut_in" = None \/ cfg !! "cut_out" = None ->
   power_curve cfg min_v max_v steps = None) /\
  (forall rows,
     power_curve cfg min_v max_v steps = Some rows ->
     is_Some (cfg !! "blade_radius") /\ is_Some (cfg !! "air_density") /\
     is_Some (cfg !! "cut_in") /\ is_Some (cfg !! "cut_out")).
Proof.
  split.
  - intros H. destruct (power_curve cfg min_v max_v steps) as [rows|] eqn:E;
      [|reflexivity].
    apply power_curve_some_keys in E.
    destruct E as (r & rho & cin & cout & Hr & Hrho & Hcin & Hcout).
    destruct H as [H | [H | [H | H]]]; congruence.
  - intros rows E. apply power_curve_some_keys in E.
    destruct E as (r & rho & cin & cout & Hr & Hrho & Hcin & Hcout).
    rewrite Hr, Hrho, Hcin, Hcout. eauto.
Qed.

(** X2: a frame [power_curve] returns has exactly [steps] rows, and with
    two steps or more its first wind speed is [min_v] and its last is
    [max_v]. *)
Theorem power_curve_row_count (cfg : gmap string Q) (min_v max_v : Q)
    (steps : nat) (rows : list (Q * Q)) :
  power_curve cfg min_v max_v steps = Some rows ->
  length rows = steps /\
  ((2 <= steps)%nat ->
   exists first middle,
     map fst rows = first :: middle ++ [max_v] /\ first == min_v).
Proof.
  intros H.
  destruct (power_curve_some_keys _ _ _ _ _ H)
    as (r & rho & cin & cout & Hr & Hrho & Hcin & Hcout).
  rewrite (power_curve_rows_eq cfg r rho cin cout) in H by assumption.
  inversion H; subst rows; clear H. split.
  - rewrite length_map. apply linspace_length.
  - intros Hsteps. rewrite map_map. simpl. rewrite map_id.
    destruct steps as [|[|n]]; [lia | lia |]. apply linspace_ends.
Qed.

Lemma power_curve_row_count_witness :
  exists rows,
    power_curve example_cfg 0 25 6 = Some rows /\
    length rows = 6%nat /\
    ((2 <= 6)%nat ->
     exists first middle,
       map fst rows = first :: middle ++ [25] /\ first == 0).
Proof.
  eexists. split; [reflexivity|].
  apply (power_curve_row_count example_cfg 0 25 6). reflexivity.
Defined.

Lemma cube_nonneg (v : Q) : 0 <= v -> 0 <= v ^ 3.
Proof.
  intros H. simpl.
  assert (Hsq : 0 <= v * v) by apply Qsquare_nonneg.
  apply Qmult_le_0_compat; assumption.
Qed.

Lemma cube_monotone (v w : Q) : 0 <= v -> v <= w -> v ^ 3 <= w ^ 3.
Proof.
  intros H0 Hle. simpl.
  assert (Hw : 0 <= w) by lra.
  assert (Hsq : v * v <= w * w)
    by (apply Qmult_le_compat_nonneg; split; assumption).
  assert (Hsq0 : 0 <= v * v) by (apply Qmult_le_0_compat; assumption).
  apply Qmult_le_compat_nonneg; split; assumption.
Qed.

Lemma power_factor_nonneg (rho r : Q) :
  0 <= rho -> 0 <= power_curve_cp * 0.5 * rho * (np_pi * r ^ 2).
Proof.
  intros Hrho. pose proof np_pi_pos as Hpi.
  assert (Hsq : 0 <= r ^ 2) by (simpl; apply Qsquare_nonneg).
  assert (Harea : 0 <= np_pi * r ^ 2)
    by (apply Qmult_le_0_compat; [lra | exact Hsq]).
  assert (Hk : 0 <= power_curve_cp * 0.5 * rho).
  { apply Qmult_le_0_compat; [|exact Hrho]. discriminate. }
  apply Qmult_le_0_compat; assumption.
Qed.

(** X3: with a non-negative air density and [0 <= min_v <= max_v], no row
    of the frame holds a negative power. *)
Theorem power_curve_nonneg (cfg : gmap string Q) (rho : Q) (min_v max_v : Q)
    (steps : nat) (rows : list (Q * Q)) :
  cfg !! "air_density" = Some rho -> 0 <= rho ->
  0 <= min_v -> min_v <= max_v ->
  power_curve cfg min_v max_v steps = Some rows ->
  forall v p, In (v, p) rows -> min_v <= v /\ v <= max_v /\ 0 <= p.
Proof.
  intros Hrho Hpos Hmin Hle H v p Hin.
  destruct (power_curve_some_keys _ _ _ _ _ H)
    as (r & rho' & cin & cout & Hr & Hrho' & Hcin & Hcout).
  assert (rho' = rho) by congruence. subst rho'.
  rewrite (power_curve_rows_eq cfg r rho cin cout) in H by assumption.
  inversion H; subst rows; clear H.
  apply in_map_iff in Hin. destruct Hin as (x & Heq & Hx).
  inversion Heq; subst x p; clear Heq.
  destruct (linspace_bounds _ _ _ _ Hle Hx) as [H1 H2].
  split; [exact H1|]. split; [exact H2|].
  destruct (Qltb v cin || Qltb cout v); [discriminate|].
  apply Qmult_le_0_compat.
  - apply power_factor_nonneg. exact Hpos.
  - apply cube_nonneg. lra.
Qed.

Lemma power_curve_nonneg_witness :
  exists rows,
    power_curve example_cfg 0 25 6 = Some rows /\
    forall v p, In (v, p) rows -> 0 <= v /\ v <= 25 /\ 0 <= p.
Proof.
  eexists. split; [reflexivity|].
  apply (power_curve_nonneg example_cfg 1.225 0 25 6);
    reflexivity || discriminate.
Defined.

(** X4: inside the operating envelope the power never decreases with the
    wind speed: for a non-negative air density and cut-in speed, two rows
    with [cut_in <= v1 <= v2 <= cut_out] have [p1 <= p2]. *)
Theorem power_curve_monotone (cfg : gmap string Q) (rho cin cout : Q)
    (min_v max_v : Q) (steps : nat) (rows : list (Q * Q)) :
  cfg !! "air_density" = Some rho ->
  cfg !! "cut_in" = Some cin ->
  cfg !! "cut_out" = Some cout ->
  0 <= rho -> 0 <= cin ->
  power_curve cfg min_v max_v steps = Some rows ->
  forall v1 p1 v2 p2,
    In (v1, p1) rows -> In (v2, p2) rows ->
    cin <= v1 -> v1 <= v2 -> v2 <= cout ->
    p1 <= p2.
Proof.
  intros Hrho Hcin Hcout Hpos Hcin0 H v1 p1 v2 p2 Hin1 Hin2 H1 H12 H2.
  destruct (power_curve_some_keys _ _ _ _ _ H)
    as (r & rho' & cin' & cout' & Hr & Hrho' & Hcin' & Hcout').
  assert (rho' = rho) by congruence.
  assert (cin' = cin) by congruence.
  assert (cout' = cout) by congruence. subst rho' cin' cout'.
  rewrite (power_curve_rows_eq cfg r rho cin cout) in H by assumption.
  inversion H; subst rows; clear H.
  apply in_map_iff in Hin1. destruct Hin1 as (x1 & Heq1 & _).
  apply in_map_iff in Hin2. destruct Hin2 as (x2 & Heq2 & _).
  inversion Heq1; subst x1 p1; clear Heq1.
  inversion Heq2; subst x2 p2; clear Heq2.
  assert (E1 : Qltb v1 cin || Qltb cout v1 = false).
  { apply orb_false_iff. split; apply Qltb_ge; lra. }
  assert (E2 : Qltb v2 cin || Qltb cout v2 = false).
  { apply orb_false_iff. split; apply Qltb_ge; lra. }
  rewrite E1, E2.
  rewrite !(Qmult_comm (power_curve_cp * 0.5 * rho * (np_pi * r ^ 2))).
  apply Qmult_le_compat_r.
  - apply cube_monotone; lra.
  - apply power_factor_nonneg. exact Hpos.
Qed.

Lemma power_curve_monotone_witness :
  exists rows,
    power_curve example_cfg 0 25 6 = Some rows /\
    forall v1 p1 v2 p2,
      In (v1, p1) rows -> In (v2, p2) rows ->
      2.5 <= v1 -> v1 <= v2 -> v2 <= 25.0 ->
      p1 <= p2.
Proof.
  eexists. split; [reflexivity|].
  apply (power_curve_monotone example_cfg 1.225 2.5 25.0 0 25 6);
    reflexivity || discriminate.
Defined.

End PowerCurveMore.

(** ** visualize.py: the two panels of [plot_tsr_analysis] *)

Section TsrPanelFacts.
Import Num Visualize.

Lemma py_max0_zero_iff (cp : Q) : py_max0 cp == 0 <-> cp <= 0.
Proof.
  unfold py_max0. destruct (cp ?= 0) eqn:E.
  - apply Qeq_alt in E. split; intros _; [lra | reflexivity].
  - apply Qlt_alt in E. split; intros _; [lra | reflexivity].
  - apply Qgt_alt in E. split; intros H; lra.
Qed.

Lemma py_max0_le (cp bound : Q) : 0 <= bound -> cp <= bound -> py_max0 cp <= bound.
Proof.
  intros H0 H. unfold py_max0. destruct (cp ?= 0); assumption.
Qed.

(** X5: for a positive [tsr] the plotted power coefficient is zero exactly
    on the band [5 <= tsr <= 10], where the polynomial is clamped, and
    positive elsewhere. *)
Theorem cp_point_zero_band (tsr : Q) :
  0 < tsr ->
  (cp_point tsr == 0 <-> 5 <= tsr /\ tsr <= 10) /\
  (0 < cp_point tsr <-> tsr < 5 \/ 10 < tsr).
Proof.
  intros Hpos.
  assert (Hband : cp_point tsr == 0 <-> 5 <= tsr /\ tsr <= 10).
  { unfold cp_point. rewrite py_max0_zero_iff, cp_raw_factored. split.
    - intros H.
      destruct (Qlt_le_dec tsr 5) as [Hlt | Hge].
      + assert (0 < tsr * ((5 - tsr) * (10 - tsr)))
          by (repeat apply Qmult_lt_0_compat; lra).
        lra.
      + split; [exact Hge|].
        destruct (Qlt_le_dec 10 tsr) as [Hgt | Hle]; [|exact Hle].
        assert (0 < tsr * ((tsr - 5) * (tsr - 10)))
          by (repeat apply Qmult_lt_0_compat; lra).
        lra.
    - intros [H5 H10].
      assert (0 <= tsr * ((tsr - 5) * (10 - tsr)))
        by (repeat apply Qmult_le_0_compat; lra).
      lra. }
  split; [exact Hband|].
  pose proof (py_max0_nonneg (cp_raw tsr)) as Hnn. fold (cp_point tsr) in Hnn.
  split.
  - intros H.
    destruct (Qlt_le_dec tsr 5) as [Hlt | Hge]; [left; exact Hlt|].
    destruct (Qlt_le_dec 10 tsr) as [Hgt | Hle]; [right; exact Hgt|].
    assert (cp_point tsr == 0) by (apply Hband; split; assumption). lra.
  - intros H.
    destruct (Qlt_le_dec 0 (cp_point tsr)) as [Hlt | Hle]; [exact Hlt|].
    assert (Hz : cp_point tsr == 0) by lra.
    apply Hband in Hz. lra.
Qed.

Lemma cp_point_zero_band_witness :
  0 < 7 /\
  (cp_point 7 == 0 <-> 5 <= 7 /\ 7 <= 10) /\
  (0 < cp_point 7 <-> 7 < 5 \/ 10 < 7).
Proof.
  assert (H : 0 < 7) by reflexivity.
  split; [exact H | exact (cp_point_zero_band 7 H)].
Defined.

(** X6: up to the right end of the plotted domain the curve never exceeds
    its value there: [Cp(tsr) <= Cp(15) = 7.5] for every [tsr <= 15]. *)
Theorem cp_point_max_at_right_end (tsr : Q) :
  tsr <= 15 -> cp_point tsr <= cp_point 15 /\ cp_point 15 == 7.5.
Proof.
  intros H15.
  assert (E15 : cp_point 15 == 7.5) by reflexivity.
  split; [|exact E15]. rewrite E15.
  unfold cp_point. apply py_max0_le; [discriminate|].
  rewrite cp_raw_factored.
  assert (Hsq : 0 <= tsr * tsr) by apply Qsquare_nonneg.
  assert (0 <= (15 - tsr) * (tsr * tsr + 50))
    by (apply Qmult_le_0_compat; lra).
  lra.
Qed.

Lemma cp_point_max_at_right_end_witness :
  2 <= 15 /\ cp_point 2 <= cp_point 15 /\ cp_point 15 == 7.5.
Proof.
  assert (H : 2 <= 15) by discriminate.
  split; [exact H | exact (cp_point_max_at_right_end 2 H)].
Defined.

Lemma rpm_point_value (tsr v r : Q) :
  ~ r == 0 ->
  rpm_point tsr v r = Finite (tsr * v / r * 60.0 / (2.0 * np_pi)).
Proof.
  intros Hr. unfold rpm_point.
  rewrite (np_div_finite _ _ Hr). cbn [np_mul].
  rewrite np_div_finite by (intros H; discriminate H).
  reflexivity.
Qed.

Lemma rpm_point_zero (tsr v r : Q) :
  0 < tsr * v -> r == 0 -> rpm_point tsr v r = PosInf.
Proof.
  intros Hpos Hr. unfold rpm_point, np_div at 2.
  apply Qeq_alt in Hr. rewrite Hr.
  unfold signed_inf. apply Qgt_alt in Hpos. rewrite Hpos.
  reflexivity.
Qed.

Lemma rpm_scale_pos : 0 < 60.0 / (2.0 * np_pi).
Proof. reflexivity. Qed.

Lemma rpm_value_factor (tsr v r : Q) :
  ~ r == 0 ->
  tsr * v / r * 60.0 / (2.0 * np_pi)
  == (tsr * v) * / r * (60.0 / (2.0 * np_pi)).
Proof.
  intros Hr. field. split; [|exact Hr].
  intros H. pose proof np_pi_pos. lra.
Qed.

Lemma wind_speeds_range_bounds (v : Q) :
  In v wind_speeds_range -> 2 <= v /\ v <= 20.
Proof. apply linspace_bounds. discriminate. Qed.

Lemma np_positive_finite (q : Q) : 0 < q -> np_positive (Finite q) = true.
Proof.
  intros H. cbn [np_positive]. apply negb_true_iff, Qle_bool_false. exact H.
Qed.

Lemma np_negative_finite (q : Q) : q < 0 -> np_negative (Finite q) = true.
Proof.
  intros H. cbn [np_negative]. apply negb_true_iff, Qle_bool_false. exact H.
Qed.

(** One RPM curve: 100 points with the sign of the radius. *)
Lemma rpm_values_sign (tsr r : Q) :
  0 < tsr ->
  length (rpm_values tsr r) = 100%nat /\
  (0 < r -> List.Forall (fun y => np_positive y = true) (rpm_values tsr r)) /\
  (r < 0 -> List.Forall (fun y => np_negative y = true) (rpm_values tsr r)) /\
  (r == 0 -> List.Forall (fun y => np_is_finite y = false) (rpm_values tsr r)).
Proof.
  intros Htsr.
  assert (Hnum : forall v, In v wind_speeds_range -> 0 < tsr * v).
  { intros v Hv. apply wind_speeds_range_bounds in Hv.
    apply Qmult_lt_0_compat; lra. }
  pose proof rpm_scale_pos as Hscale.
  unfold rpm_values. split; [|split; [|split]].
  - rewrite length_map. apply linspace_length.
  - intros Hr. apply List.Forall_map, List.Forall_forall. intros v Hv.
    assert (Hne : ~ r == 0) by lra.
    rewrite (rpm_point_value _ _ _ Hne). apply np_positive_finite.
    rewrite (rpm_value_factor _ _ _ Hne).
    apply Qmult_lt_0_compat; [|exact Hscale].
    apply Qmult_lt_0_compat; [apply Hnum; exact Hv|].
    apply Qinv_lt_0_compat. exact Hr.
  - intros Hr. apply List.Forall_map, List.Forall_forall. intros v Hv.
    assert (Hne : ~ r == 0) by lra.
    rewrite (rpm_point_value _ _ _ Hne). apply np_negative_finite.
    rewrite (rpm_value_factor _ _ _ Hne).
    assert (Hinv : 0 < / - r) by (apply Qinv_lt_0_compat; lra).
    assert (Hprod : 0 < tsr * v * / - r * (60.0 / (2.0 * np_pi))).
    { apply Qmult_lt_0_compat; [|exact Hscale].
      apply Qmult_lt_0_compat; [apply Hnum; exact Hv | exact Hinv]. }
    assert (E : tsr * v * / r * (60.0 / (2.0 * np_pi))
                == - (tsr * v * / - r * (60.0 / (2.0 * np_pi)))).
    { field. split; [|exact Hne]. intros H. pose proof np_pi_pos. lra. }
    rewrite E. lra.
  - intros Hr. apply List.Forall_map, List.Forall_forall. intros v Hv.
    rewrite (rpm_point_zero tsr v r); [reflexivity | apply Hnum; exact Hv | exact Hr].
Qed.

(** X7: each of the five RPM curves of the second panel (TSR 6 to 10) has
    100 points that take the sign of the radius: every point is positive
    for a positive radius and negative for a negative radius, an infinity
    counting with its sign, and for a zero radius no point is finite; no
    radius raises. *)
Theorem rpm_curves_sign (r : Q) :
  List.Forall
    (fun curve =>
       length (snd curve) = 100%nat /\
       (0 < r -> List.Forall (fun y => np_positive y = true) (snd curve)) /\
       (r < 0 -> List.Forall (fun y => np_negative y = true) (snd curve)) /\
       (r == 0 -> List.Forall (fun y => np_is_finite y = false) (snd curve)))
    (rpm_curves r) /\
  map fst (rpm_curves r) = [6; 7; 8; 9; 10].
Proof.
  split; [|reflexivity].
  unfold rpm_curves.
  repeat (constructor; [apply rpm_values_sign; reflexivity|]).
  constructor.
Qed.

End TsrPanelFacts.

(** ** visualize.py: the plotting functions *)

Section PlotFacts.
Import Num Visualize Plot.

Lemma has_power_curve_keys_spec (cfg : gmap string Q) :
  has_power_curve_keys cfg = true <->
  is_Some (cfg !! "blade_radius") /\ is_Some (cfg !! "air_density") /\
  is_Some (cfg !! "cut_in") /\ is_Some (cfg !! "cut_out").
Proof.
  unfold has_power_curve_keys, power_curve_keys. simpl.
  rewrite !andb_true_iff, !bool_decide_eq_true. tauto.
Qed.

Lemma power_curve_default_some (cfg : gmap string Q) :
  has_power_curve_keys cfg = true ->
  exists df r,
    power_curve_default cfg = Some df /\ cfg !! "blade_radius" = Some r /\
    map fst df = linspace 0.0 25.0 200 /\ length df = 200%nat.
Proof.
  intros H. apply has_power_curve_keys_spec in H.
  destruct H as ([r Hr] & [rho Hrho] & [cin Hcin] & [cout Hcout]).
  unfold power_curve_default.
  rewrite (power_curve_rows_eq cfg r rho cin cout) by assumption.
  eexists. exists r. split; [reflexivity|]. split; [exact Hr|]. split.
  - rewrite map_map. apply map_id.
  - rewrite length_map. apply linspace_length.
Qed.

Lemma power_curve_default_none (cfg : gmap string Q) :
  has_power_curve_keys cfg = false -> power_curve_default cfg = None.
Proof.
  intros H. unfold power_curve_default.
  destruct (power_curve cfg 0.0 25.0 200) as [df|] eqn:E; [|reflexivity].
  apply power_curve_some_keys in E.
  destruct E as (r & rho & cin & cout & Hr & Hrho & Hcin & Hcout).
  assert (Ht : has_power_curve_keys cfg = true)
    by (apply has_power_curve_keys_spec; rewrite Hr, Hrho, Hcin, Hcout; eauto).
  congruence.
Qed.

Lemma kilowatts_length (df : list (Q * Q)) : length (kilowatts df) = length df.
Proof. unfold kilowatts. apply length_map. Qed.

Lemma frame_has_keys (cfg : gmap string Q) :
  is_Some (power_curve_default cfg) -> has_power_curve_keys cfg = true.
Proof.
  intros [df H]. destruct (has_power_curve_keys cfg) eqn:E; [reflexivity|].
  rewrite (power_curve_default_none cfg E) in H. discriminate H.
Qed.

(** X8: when a key is missing, [plot_power_curve] raises before any pyplot
    call; when it returns, it has opened one figure, drawn a single curve of
    the 200 default samples with the power divided by 1000, and ended with
    [show]. *)
Theorem plot_power_curve_outcome (cfg : gmap string Q) :
  (has_power_curve_keys cfg = false ->
   plot_power_curve cfg = Raised []) /\
  (forall calls,
   plot_power_curve cfg = Completed calls ->
   exists df decorations,
     power_curve_default cfg = Some df /\
     calls
     = figure 10 6
       :: plot (map fst df) (map (fun row => Finite (snd row / 1000)) df)
               None (Some "Power (kW)") (Some 2%Z)
       :: decorations ++ [show] /\
     curves (decorations ++ [show]) = [] /\
     map fst df = linspace 0.0 25.0 200 /\ length df = 200%nat).
Proof.
  split.
  - intros H. unfold plot_power_curve.
    rewrite (power_curve_default_none cfg H). reflexivity.
  - intros calls Hcalls.
    destruct (has_power_curve_keys cfg) eqn:H.
    + destruct (power_curve_default_some cfg H)
        as (df & r & Hdf & _ & Hxs & Hlen).
      exists df.
      exists [xlabel "Wind speed (m/s)"; ylabel "Power (kW)";
              title "Wind Turbine Power Curve"; legend; grid 0.3;
              xlim 0 25; ylim 0 None].
      unfold plot_power_curve in Hcalls. rewrite Hdf in Hcalls.
      unfold kilowatts in Hcalls.
      split; [exact Hdf|].
      split; [inversion Hcalls; reflexivity|].
      split; [reflexivity|]. split; [exact Hxs | exact Hlen].
    + unfold plot_power_curve in Hcalls.
      rewrite (power_curve_default_none cfg H) in Hcalls. discriminate Hcalls.
Qed.

Variable format_1f : Q -> string.

Lemma plot_designs_all (designs : list (string * gmap string Q)) :
  forall calls,
    Forall (fun d => has_power_curve_keys (snd d) = true) designs ->
    exists drawn,
      plot_designs format_1f designs calls = (calls ++ drawn, false) /\
      length drawn = length designs /\
      List.Forall (fun c => is_plot c = true) drawn.
Proof.
  induction designs as [|[name cfg] designs IH]; intros calls Hall.
  - exists []. rewrite app_nil_r. repeat split. constructor.
  - inversion Hall as [|d ds Hcfg Hrest]; subst. simpl in Hcfg.
    destruct (power_curve_default_some cfg Hcfg) as (df & r & Hdf & Hr & _).
    cbn [plot_designs]. rewrite Hdf, Hr.
    destruct (IH (calls ++
                  [plot (map fst df) (kilowatts df) None
                     (Some (String.append name
                              (String.append " ("
                                 (String.append (format_1f r) "m radius)"))))
                     (Some 2%Z)]) Hrest)
      as (drawn & Heq & Hlen & Hplots).
    eexists (_ :: drawn). rewrite Heq, <- app_assoc. simpl.
    split; [reflexivity|]. split; [lia|].
    constructor; [reflexivity | exact Hplots].
Qed.

Lemma plot_designs_abort (good : list (string * gmap string Q))
    (name : string) (cfg : gmap string Q)
    (rest : list (string * gmap string Q)) :
  has_power_curve_keys cfg = false ->
  forall calls,
    Forall (fun d => has_power_curve_keys (snd d) = true) good ->
    exists drawn,
      plot_designs format_1f (good ++ (name, cfg) :: rest) calls
      = (calls ++ drawn, true) /\
      length drawn = length good /\
      List.Forall (fun c => is_plot c = true) drawn.
Proof.
  intros Hbad.
  induction good as [|[gname gcfg] good IH]; intros calls Hall.
  - exists []. rewrite app_nil_r. simpl.
    rewrite (power_curve_default_none cfg Hbad). repeat split. constructor.
  - inversion Hall as [|d ds Hcfg Hrest]; subst. simpl in Hcfg.
    destruct (power_curve_default_some gcfg Hcfg) as (df & r & Hdf & Hr & _).
    simpl app. cbn [plot_designs]. rewrite Hdf, Hr.
    destruct (IH (calls ++
                  [plot (map fst df) (kilowatts df) None
                     (Some (String.append gname
                              (String.append " ("
                                 (String.append (format_1f r) "m radius)"))))
                     (Some 2%Z)]) Hrest)
      as (drawn & Heq & Hlen & Hplots).
    eexists (_ :: drawn). rewrite Heq, <- app_assoc. simpl.
    split; [reflexivity|]. split; [lia|].
    constructor; [reflexivity | exact Hplots].
Qed.

Lemma plot_designs_returns (designs : list (string * gmap string Q)) :
  forall calls,
    snd (plot_designs format_1f designs calls) = false ->
    Forall (fun d => has_power_curve_keys (snd d) = true) designs.
Proof.
  induction designs as [|[name cfg] designs IH]; intros calls H.
  - constructor.
  - destruct (has_power_curve_keys cfg) eqn:Hk.
    + destruct (power_curve_default_some cfg Hk) as (df & r & Hdf & Hr & _).
      cbn [plot_designs] in H. rewrite Hdf, Hr in H.
      constructor; [exact Hk | exact (IH _ H)].
    + cbn [plot_designs] in H.
      rewrite (power_curve_default_none cfg Hk) in H. discriminate H.
Qed.

Lemma curves_all_plots (drawn : list PltCall) :
  List.Forall (fun c => is_plot c = true) drawn -> curves drawn = drawn.
Proof.
  unfold curves. induction 1 as [|c l Hc _ IH]; simpl; [reflexivity|].
  rewrite Hc, IH. reflexivity.
Qed.

Lemma plots_hold_no_show (drawn : list PltCall) :
  List.Forall (fun c => is_plot c = true) drawn -> ~ In show drawn.
Proof.
  intros H Hin. rewrite List.Forall_forall in H.
  specialize (H show Hin). discriminate H.
Qed.

Lemma frames_have_keys (designs : list (string * gmap string Q)) :
  List.Forall (fun d => is_Some (power_curve_default (snd d))) designs ->
  Forall (fun d => has_power_curve_keys (snd d) = true) designs.
Proof.
  induction 1 as [|d designs Hd _ IH]; constructor;
    [apply frame_has_keys; exact Hd | exact IH].
Qed.

(** X9: [plot_design_comparison] returns when [power_curve] returns a frame
    for every design, and only if every design has the four keys
    [power_curve] reads; when it returns it has opened the figure first,
    drawn one curve per design and ended with [show]. *)
Theorem plot_design_comparison_completes
    (designs : list (string * gmap string Q)) :
  (List.Forall (fun d => is_Some (power_curve_default (snd d))) designs ->
   exists calls, plot_design_comparison format_1f designs = Completed calls) /\
  (forall calls,
     plot_design_comparison format_1f designs = Completed calls ->
     Forall (fun d => has_power_curve_keys (snd d) = true) designs /\
     length (curves calls) = length designs /\
     List.hd show calls = figure 12 8 /\
     List.last calls legend = show).
Proof.
  split.
  - intros Hall. apply frames_have_keys in Hall.
    destruct (plot_designs_all designs [figure 12 8] Hall) as (drawn & Heq & _).
    unfold plot_design_comparison. rewrite Heq. eauto.
  - intros calls H.
    assert (Hall : Forall (fun d => has_power_curve_keys (snd d) = true) designs).
    { unfold plot_design_comparison in H.
      destruct (plot_designs format_1f designs [figure 12 8])
        as [log raised] eqn:E.
      destruct raised; [discriminate H|].
      apply (plot_designs_returns designs [figure 12 8]). rewrite E.
      reflexivity. }
    split; [exact Hall|].
    destruct (plot_designs_all designs [figure 12 8] Hall)
      as (drawn & Heq & Hlen & Hplots).
    unfold plot_design_comparison in H. rewrite Heq in H.
    assert (Hcalls : calls = figure 12 8 :: drawn ++
              ([xlabel "Wind speed (m/s)"; ylabel "Power (kW)";
                title "Wind Turbine Design Comparison"; legend; grid 0.3;
                xlim 0 25; ylim 0 None] ++ [show]))
      by (inversion H; reflexivity).
    subst calls. clear H.
    split; [|split].
    + unfold curves. cbn [List.filter is_plot]. rewrite List.filter_app.
      fold (curves drawn). rewrite (curves_all_plots drawn Hplots).
      simpl. rewrite app_nil_r. exact Hlen.
    + reflexivity.
    + rewrite app_comm_cons, app_assoc. apply List.last_last.
Qed.

(** X10: when [power_curve] returns a frame for each design of [good] and
    the design that follows lacks a key, the comparison raises with the
    figure opened and exactly the curves of [good] drawn, and [show] is
    never reached. *)
Theorem plot_design_comparison_aborts
    (good : list (string * gmap string Q)) (name : string)
    (cfg : gmap string Q) (rest : list (string * gmap string Q)) :
  List.Forall (fun d => is_Some (power_curve_default (snd d))) good ->
  has_power_curve_keys cfg = false ->
  exists drawn,
    plot_design_comparison format_1f (good ++ (name, cfg) :: rest)
    = Raised (figure 12 8 :: drawn) /\
    length drawn = length good /\
    curves (figure 12 8 :: drawn) = drawn /\
    ~ In show (figure 12 8 :: drawn).
Proof.
  intros Hgood Hbad. apply frames_have_keys in Hgood.
  destruct (plot_designs_abort good name cfg rest Hbad [figure 12 8] Hgood)
    as (drawn & Heq & Hlen & Hplots).
  exists drawn. unfold plot_design_comparison. rewrite Heq.
  split; [reflexivity|]. split; [exact Hlen|]. split.
  - unfold curves. simpl. apply (curves_all_plots drawn Hplots).
  - intros [H | H]; [discriminate H|].
    exact (plots_hold_no_show drawn Hplots H).
Qed.

Variable str_float : Q -> string.

(** X11: whatever the radius, zero included, and whatever [wind_speeds] is
    passed, [plot_tsr_analysis] returns after drawing six curves of 100
    points each, the Cp curve and one RPM curve per TSR from 6 to 10, and
    ends with [show]. *)
Theorem plot_tsr_analysis_curves (blade_radius : Q) (wind_speeds : list Q) :
  let calls := plot_tsr_analysis str_float blade_radius wind_speeds in
  curves calls
  = plot tsr_range (map Finite cp_values) (Some "b-") None (Some 2%Z)
    :: map (fun tsr : Z =>
              plot wind_speeds_range (rpm_values (inject_Z tsr) blade_radius)
                   None (Some (String.append "TSR=" (pretty tsr))) None)
           [6; 7; 8; 9; 10]%Z /\
  List.Forall (fun c => match c with
                        | plot xs ys _ _ _ =>
                            length xs = 100%nat /\ length ys = 100%nat
                        | _ => False
                        end) (curves calls) /\
  List.last calls legend = show /\
  calls = plot_tsr_analysis str_float blade_radius [].
Proof.
  intros calls.
  assert (Hcurves :
    curves calls
    = plot tsr_range (map Finite cp_values) (Some "b-") None (Some 2%Z)
      :: map (fun tsr : Z =>
                plot wind_speeds_range (rpm_values (inject_Z tsr) blade_radius)
                     None (Some (String.append "TSR=" (pretty tsr))) None)
             [6; 7; 8; 9; 10]%Z) by reflexivity.
  split; [exact Hcurves|]. split; [|split; reflexivity].
  rewrite Hcurves.
  assert (Hx : length tsr_range = 100%nat) by apply linspace_length.
  assert (Hw : length wind_speeds_range = 100%nat) by apply linspace_length.
  assert (Hr : forall t, length (rpm_values t blade_radius) = 100%nat)
    by (intros t; unfold rpm_values; rewrite length_map; exact Hw).
  assert (Hcp : length (map Finite cp_values) = 100%nat)
    by (unfold cp_values; rewrite !length_map; exact Hx).
  repeat constructor; auto.
Qed.

End PlotFacts.

Lemma plot_design_comparison_aborts_witness :
  exists drawn,
    Plot.plot_design_comparison (fun _ => "0.6"%string)
      ([("first"%string, Visualize.example_cfg)]
       ++ ("second"%string, ∅) :: [("third"%string, Visualize.example_cfg)])
    = Plot.Raised (Plot.figure 12 8 :: drawn) /\
    length drawn = 1%nat /\
    Plot.curves (Plot.figure 12 8 :: drawn) = drawn /\
    ~ In Plot.show (Plot.figure 12 8 :: drawn).
Proof.
  apply (plot_design_comparison_aborts (fun _ => "0.6"%string)
           [("first"%string, Visualize.example_cfg)] "second"%string ∅
           [("third"%string, Visualize.example_cfg)]).
  - constructor; [eexists; reflexivity | constructor].
  - reflexivity.
Defined.

(** ** cli.py: the CSV path and the files of a run *)

Section CsvPathFacts.
Import WindCalc Py Cli.

(** X12: the CSV path never contains [.json]: every occurrence in the
    output path was replaced; deriving the CSV path again changes nothing. *)
Theorem csv_path_no_json (output : string) :
  contains ".json" (csv_path output) = false /\
  csv_path (csv_path output) = csv_path output.
Proof.
  split; [apply csv_path_clean|].
  apply csv_path_fixed, csv_path_clean.
Qed.

(** X13: the CSV path equals the output path exactly when the output path
    contains no [.json]. *)
Theorem csv_path_fixed_iff (output : string) :
  csv_path output = output <-> contains ".json" output = false.
Proof.
  split.
  - intros H. destruct (contains ".json" output) eqn:E; [|reflexivity].
    exfalso. exact (csv_path_changes output E H).
  - apply csv_path_fixed.
Qed.

Variable design_summary : TurbineConfig -> Outcome Dict.

Lemma design_csv_not_writable (a : Args) (w : World) (summary : Dict) :
  design_summary (config_of_args a) = inr summary ->
  csv_path (output a) <> output a ->
  writable w (output a) = true ->
  writable w (csv_path (output a)) = false ->
  design design_summary a w
  = (raise (OSError (csv_path (output a))),
     {| files := <[output a := JsonObject summary]> (files w);
        stdout := stdout w ++ [String.append "Design written to " (output a)] |}).
Proof.
  intros Hs Hne Hw1 Hw2. unfold design, write_file. rewrite Hs, Hw1.
  cbn [ret].
  assert (Hw2' : writable
            (echo (String.append "Design written to " (output a))
               {| files := <[output a := json_dump summary]> (files w);
                  stdout := stdout w |})
            (csv_path (output a)) = false).
  { unfold writable, echo in *. cbn [files] in *.
    rewrite lookup_insert_ne by congruence. exact Hw2. }
  rewrite Hw2'. reflexivity.
Qed.

(** X14: when the output path contains [.json], the solver returns and the
    output path can be written, the CSV path is a different path.  If it
    can be written too, the command succeeds and leaves the JSON object at
    the output path and the CSV table, with the same keys and one row, at
    the CSV path, and echoes the two paths.  If it cannot (its directory is
    missing, say), the command raises [OSError] after the JSON object was
    written and the first line echoed. *)
Theorem design_keeps_both (a : Args) (w : World) (summary : Dict) :
  design_summary (config_of_args a) = inr summary ->
  contains ".json" (output a) = true ->
  writable w (output a) = true ->
  csv_path (output a) <> output a /\
  (writable w (csv_path (output a)) = true ->
   let w' := snd (design design_summary a w) in
   fst (design design_summary a w) = ret tt /\
   files w' !! output a = Some (JsonObject summary) /\
   files w' !! csv_path (output a)
   = Some (CsvTable (keys summary) [values summary]) /\
   stdout w'
   = stdout w ++ [String.append "Design written to " (output a);
                  String.append "CSV written to " (csv_path (output a))]) /\
  (writable w (csv_path (output a)) = false ->
   design design_summary a w
   = (raise (OSError (csv_path (output a))),
      {| files := <[output a := JsonObject summary]> (files w);
         stdout := stdout w
                   ++ [String.append "Design written to " (output a)] |})).
Proof.
  intros Hs Hc Hw1.
  assert (Hne : csv_path (output a) <> output a)
    by (apply csv_path_changes; exact Hc).
  split; [exact Hne|]. split.
  - intros Hw2 w'. subst w'.
    rewrite (design_files design_summary a w summary Hs Hw1 Hw2).
    cbn [fst snd files stdout].
    split; [reflexivity|]. split; [|split].
    + rewrite lookup_insert_ne by exact Hne. apply lookup_insert_eq.
    + apply lookup_insert_eq.
    + rewrite <- app_assoc. reflexivity.
  - intros Hw2.
    exact (design_csv_not_writable a w summary Hs Hne Hw1 Hw2).
Qed.

(** X15: the command touches no path other than the output path and the
    CSV path, and when the solver raises it writes and echoes nothing: the
    exception leaves the world as it was. *)
Theorem design_frame (a : Args) (w : World) :
  (forall path,
     path <> output a -> path <> csv_path (output a) ->
     files (snd (design design_summary a w)) !! path = files w !! path) /\
  (forall e,
     design_summary (config_of_args a) = inl e ->
     design design_summary a w = (raise e, w)).
Proof.
  split.
  - intros path H1 H2. unfold design, write_file.
    destruct (design_summary (config_of_args a)) as [e|summary]; [reflexivity|].
    destruct (writable w (output a)); [|reflexivity]. cbn [ret].
    destruct (writable _ (csv_path (output a))); simpl;
      rewrite ?lookup_insert_ne by congruence; reflexivity.
  - intros e He. apply design_failure. exact He.
Qed.

End CsvPathFacts.

Lemma design_keeps_both_witness :
  exists summary,
    Cli.csv_path "summary.json" <> "summary.json"%string /\
    (Cli.writable Cli.empty_world (Cli.csv_path "summary.json") = true ->
     let w' := snd (Cli.design Py.sample_design_summary (Cli.default_args 50)
                      Cli.empty_world) in
     fst (Cli.design Py.sample_design_summary (Cli.default_args 50)
            Cli.empty_world) = Py.ret tt /\
     Cli.files w' !! "summary.json"%string = Some (Cli.JsonObject summary) /\
     Cli.files w' !! Cli.csv_path "summary.json"
     = Some (Cli.CsvTable (Py.keys summary) [Py.values summary]) /\
     Cli.stdout w'
     = [] ++ [String.append "Design written to " "summary.json";
              String.append "CSV written to " (Cli.csv_path "summary.json")]) /\
    (Cli.writable Cli.empty_world (Cli.csv_path "summary.json") = false ->
     Cli.design Py.sample_design_summary (Cli.default_args 50) Cli.empty_world
     = (Py.raise (Py.OSError (Cli.csv_path "summary.json")),
        {| Cli.files := <["summary.json"%string := Cli.JsonObject summary]> ∅;
           Cli.stdout := [] ++ [String.append "Design written to "
                                  "summary.json"] |})).
Proof.
  eexists.
  apply (design_keeps_both Py.sample_design_summary (Cli.default_args 50)
           Cli.empty_world);
    vm_compute; reflexivity.
Defined.

(** The run the missing directory breaks: [--output runs.json/summary.json]
    where [runs.json] exists and [runs.csv] does not. *)
Example design_missing_csv_directory :
  exists summary,
    Cli.design Py.sample_design_summary
      {| Cli.wattage := 50; Cli.air_density := 1.225; Cli.wind_speed := 6.0;
         Cli.radius := 0.5; Cli.blades := 3; Cli.generator := "brushless";
         Cli.output := "runs.json/summary.json" |}
      {| Cli.files := {["runs.csv/summary.csv"%string := Cli.NotWritable]};
         Cli.stdout := [] |}
    = (Py.raise (Py.OSError "runs.csv/summary.csv"),
       {| Cli.files :=
            <["runs.json/summary.json"%string := Cli.JsonObject summary]>
              {["runs.csv/summary.csv"%string := Cli.NotWritable]};
          Cli.stdout := ["Design written to runs.json/summary.json"%string] |}).
Proof. eexists. vm_compute. reflexivity. Qed.

(** ** gui.py: which dialog [generate] shows *)

Section GuiMore.
Import WindCalc Py Gui.

Variable py_float : string -> Outcome Q.
Variable py_int : string -> Outcome Z.
Variable str : Exception -> string.
Variable json_dumps : Dict -> string.

(** X16: the texts are parsed in the order wattage, air density, wind
    speed, radius, blades; the first one that fails to parse decides the
    failure dialog, whatever the later texts hold and whatever the solver
    would do. *)
Theorem generate_first_error (f : Form) (e : Exception) :
  py_float (wattage f) = inl e \/
  (exists w, py_float (wattage f) = inr w /\
     (py_float (air_density f) = inl e \/
      exists rho, py_float (air_density f) = inr rho /\
        (py_float (wind_speed f) = inl e \/
         exists v, py_float (wind_speed f) = inr v /\
           (py_float (radius f) = inl e \/
            exists r, py_float (radius f) = inr r /\
                      py_int (blades f) = inl e)))) ->
  forall design_summary : TurbineConfig -> Outcome Dict,
    generate py_float py_int str json_dumps design_summary f
    = critical "Error" (str e).
Proof.
  intros H design_summary. unfold generate, build_config.
  destruct H as [H | (w & Hw & [H | (rho & Hrho & [H | (v & Hv & [H | (r & Hr & H)])])])].
  - rewrite H. reflexivity.
  - rewrite Hw, H. reflexivity.
  - rewrite Hw, Hrho, H. reflexivity.
  - rewrite Hw, Hrho, Hv, H. reflexivity.
  - rewrite Hw, Hrho, Hv, Hr, H. reflexivity.
Qed.

Variable design_summary : TurbineConfig -> Outcome Dict.

(** X17: the dialog tells what happened: a summary dialog is only shown
    when all five texts parsed and the solver returned, and then shows the
    summary of the configuration built from the form; a failure dialog
    always carries the text of the exception that was raised. *)
Theorem generate_dialog_inv (f : Form) :
  (forall heading text,
     generate py_float py_int str json_dumps design_summary f
     = information heading text ->
     heading = "Design Summary"%string /\
     exists cfg summary,
       build_config py_float py_int f = inr cfg /\
       design_summary cfg = inr summary /\
       text = json_dumps summary) /\
  (forall heading text,
     generate py_float py_int str json_dumps design_summary f
     = critical heading text ->
     heading = "Error"%string /\
     exists e, text = str e /\
       (build_config py_float py_int f = inl e \/
        exists cfg, build_config py_float py_int f = inr cfg /\
                    design_summary cfg = inl e)).
Proof.
  unfold generate.
  destruct (build_config py_float py_int f) as [e|cfg] eqn:Hb; simpl.
  - split; intros heading text H; inversion H; subst.
    split; [reflexivity|]. exists e. split; [reflexivity | left; reflexivity].
  - destruct (design_summary cfg) as [e|summary] eqn:Hs.
    + split; intros heading text H; inversion H; subst.
      split; [reflexivity|]. exists e. split; [reflexivity|].
      right. exists cfg. split; [reflexivity | exact Hs].
    + split; intros heading text H; inversion H; subst.
      split; [reflexivity|]. exists cfg, summary. repeat split. exact Hs.
Qed.

End GuiMore.

Lemma generate_first_error_witness :
  Gui.generate
    (fun s => if String.eqb s "" then inl (Py.ValueError "empty") else inr 1)
    (fun s => inr 3%Z)
    (fun e => match e with Py.ValueError msg => msg | _ => "solver"%string end)
    (fun _ => "{}"%string)
    Py.sample_design_summary
    {| Gui.wattage := "50"; Gui.air_density := ""; Gui.wind_speed := "";
       Gui.radius := "0.5"; Gui.blades := "3" |}
  = Gui.critical "Error" "empty".
Proof.
  apply (generate_first_error
           (fun s => if String.eqb s "" then inl (Py.ValueError "empty") else inr 1)
           (fun s => inr 3%Z)
           (fun e => match e with Py.ValueError msg => msg | _ => "solver"%string end)
           (fun _ => "{}"%string)
           {| Gui.wattage := "50"; Gui.air_density := ""; Gui.wind_speed := "";
              Gui.radius := "0.5"; Gui.blades := "3" |}
           (Py.ValueError "empty")).
  right. exists 1. split; [reflexivity|]. left. reflexivity.
Defined.
